(** * Stereo DNN CUDA kernels (stereoDNN/lib/kernels.cu)

    A shallow embedding of the launch-geometry helper, the cost-volume
    kernels, the bias kernel and the host entry points of
    [redtail::tensorrt::CudaKernels], with the properties of their index
    arithmetic and of their error propagation.

    Conventions.
    - Machine integers are [Z] with the wrap-around written out:
      [u32] for [uint32_t] and [unsigned int], [u64] for [size_t], [i32] for
      [int32_t].  Signed overflow is undefined in C++; it is modelled as
      two's-complement wrap-around and every theorem that depends on a
      signed product states the bound under which no overflow occurs.
    - A device buffer is a [list T]; element access outside the buffer is an
      execution fault ([None]).
    - The threads of a launch are run one after the other; no two threads
      of a launch touch the same destination element, and every other order
      of the threads gives the same buffer ([copy_grid_order],
      [pad_grid_order], [bias_grid_order]).
    - The CUDA runtime is a parameter ([Runtime]): which launch
      configurations it refuses, and with which status. *)

From Stdlib Require Import ZArith List Lia Bool.
From stdpp Require Import base option list list_numbers.

Local Open Scope Z_scope.

(** ** Machine integers *)

Definition u32 (v : Z) : Z := v mod 2 ^ 32.
Definition u64 (v : Z) : Z := v mod 2 ^ 64.
Definition i32 (v : Z) : Z := (v + 2 ^ 31) mod 2 ^ 32 - 2 ^ 31.

Definition INT32_MAX : Z := 2 ^ 31 - 1.

(** ** Host code: assertions and undefined behaviour

    [assert] aborts the process in a debug build and is compiled out when
    [NDEBUG] is defined.  [Trap] stands for undefined behaviour that the
    host code can reach (an integer division by zero). *)

Inductive host (A : Type) : Type :=
| Ret (a : A)
| Abort
| Trap.

Arguments Ret {A} a.
Arguments Abort {A}.
Arguments Trap {A}.

#[global] Instance host_bind : MBind host := fun A B k m =>
  match m with
  | Ret a => k a
  | Abort => Abort
  | Trap => Trap
  end.

Definition assert (NDEBUG : bool) (cond : bool) : host unit :=
  if NDEBUG then Ret tt else if cond then Ret tt else Abort.

(** ** getBlockCount *)

Definition getBlockCount (NDEBUG : bool) (total_size block_size : Z) : host Z :=
  if block_size =? 0 then Trap
  else
    let res := u32 (total_size + block_size - 1) / block_size in
    assert NDEBUG (0 <? res);;
    assert NDEBUG (total_size <=? u64 (res * block_size));;
    Ret res.

(** ** Launch geometry and shape descriptors *)

(** CUDA's [dim3]: three [unsigned int] extents. *)
Record dim3 : Type := Dim3 { dim_x : Z; dim_y : Z; dim_z : Z }.

(** TensorRT's [Dims]: a rank and the extents [d[0]], [d[1]], ... *)
Record Dims : Type := mkDims { nbDims : Z; d : nat -> Z }.

Definition kMaxGridSizeY : Z := 65535.
Definition kMaxGridSizeZ : Z := 65535.

(** The threads of a launch, as pairs [(blockIdx, threadIdx)]. *)
Definition threads (g_dim b_dim : dim3) : list (dim3 * dim3) :=
  bz ← seqZ 0 (dim_z g_dim);
  by_ ← seqZ 0 (dim_y g_dim);
  bx ← seqZ 0 (dim_x g_dim);
  tz ← seqZ 0 (dim_z b_dim);
  ty ← seqZ 0 (dim_y b_dim);
  tx ← seqZ 0 (dim_x b_dim);
  [(Dim3 bx by_ bz, Dim3 tx ty tz)].

(** ** Device buffers *)

Definition rd {T} (m : list T) (i : Z) : option T :=
  if 0 <=? i then m !! Z.to_nat i else None.

Definition wr {T} (m : list T) (i : Z) (v : T) : option (list T) :=
  if (0 <=? i) && (i <? Z.of_nat (length m))
  then Some (<[Z.to_nat i := v]> m)
  else None.

(** The element types the kernels are instantiated at need a zero and an
    addition ([*pdst = 0], [conv[idst] += bias[cur_d]]). *)
Class Elem (T : Type) : Type := { zero : T; add : T -> T -> T }.

#[global] Instance Z_Elem : Elem Z := {| zero := 0; add := Z.add |}.

(** The conversions of [cuda_fp16.h] used by the precision kernels: the
    [__half] constructor from [float] followed by the reinterpretation of
    its bits, and the cast of a [__half] bit pattern to [float]. *)
Class HalfConv (F32 U16 : Type) : Type :=
  { float_to_half_bits : F32 -> U16; half_bits_to_float : U16 -> F32 }.

(** A kernel thread, given [blockIdx], [blockDim] and [threadIdx], acts on
    the destination buffer or faults.  The device-side assertions that the
    buffer pointers are not null have no counterpart: a buffer is a value. *)
Definition kernel (T : Type) : Type := dim3 -> dim3 -> dim3 -> list T -> option (list T).

Fixpoint run_threads {T} (k : dim3 -> dim3 -> list T -> option (list T))
    (ts : list (dim3 * dim3)) (m : list T) : option (list T) :=
  match ts with
  | [] => Some m
  | t :: ts' => m' ← k t.1 t.2 m; run_threads k ts' m'
  end.

(** All threads of the grid [g_dim] of blocks [b_dim]. *)
Definition run_grid {T} (k : kernel T) (g_dim b_dim : dim3) (m : list T) : option (list T) :=
  run_threads (fun blockIdx threadIdx => k blockIdx b_dim threadIdx) (threads g_dim b_dim) m.

(** ** Cost volume kernels *)

Section CostVolumeKernels.
Context {T : Type} {ET : Elem T}.

Fixpoint copy_loop (n : nat) (val : T) (pdst stride : Z) (dst : list T) : option (list T) :=
  match n with
  | O => Some dst
  | S n' => dst' ← wr dst pdst val; copy_loop n' val (pdst + stride) stride dst'
  end.

Definition costVolumeCopyKernel (src : list T) (c h w disp : Z) : kernel T :=
  fun blockIdx blockDim threadIdx dst =>
    let ix := u32 (dim_x blockIdx * dim_x blockDim + dim_x threadIdx) in
    let iy := u32 (dim_y blockIdx * dim_y blockDim + dim_y threadIdx) in
    let iz := u32 (dim_z blockIdx * dim_z blockDim + dim_z threadIdx) in
    if (u32 w <=? ix) || (u32 h <=? iy) || (u32 c <=? iz) then Some dst
    else
      let isrc := u32 (iz * u32 h * u32 w + iy * u32 w + ix) in
      let stride := u64 (i32 (2 * c * h * w)) in
      val ← rd src isrc;
      copy_loop (Z.to_nat disp) val isrc stride dst.

Fixpoint pad_loop (n : nat) (src : list T) (ix isrc pad pdst stride : Z) (dst : list T)
    : option (list T) :=
  match n with
  | O => Some dst
  | S n' =>
      v ← (if ix <? u32 pad then Some zero else rd src (u64 (isrc - pad)));
      dst' ← wr dst pdst v;
      pad_loop n' src ix isrc (pad + 1) (pdst + stride) stride dst'
  end.

Definition costVolumeCopyPadKernel (src : list T) (c h w disp : Z) : kernel T :=
  fun blockIdx blockDim threadIdx dst =>
    let ix := u32 (dim_x blockIdx * dim_x blockDim + dim_x threadIdx) in
    let iy := u32 (dim_y blockIdx * dim_y blockDim + dim_y threadIdx) in
    let iz := u32 (dim_z blockIdx * dim_z blockDim + dim_z threadIdx) in
    if (u32 w <=? ix) || (u32 h <=? iy) || (u32 c <=? iz) then Some dst
    else
      let isrc := u32 (iz * u32 h * u32 w + iy * u32 w + ix) in
      let stride := u64 (i32 (c * h * w)) in
      let idst := u64 (isrc + stride) in
      let stride := u64 (stride * 2) in
      pad_loop (Z.to_nat disp) src ix isrc 0 idst stride dst.



(** ** Bias kernel *)

Definition addDBiasTo3DConvKernel (bias : list T) (c d h w : Z) : kernel T :=
  fun blockIdx blockDim threadIdx conv =>
    let ix := u32 (dim_x blockIdx * dim_x blockDim + dim_x threadIdx) in
    let iy := u32 (dim_y blockIdx * dim_y blockDim + dim_y threadIdx) in
    let iz := u32 (dim_z blockIdx * dim_z blockDim + dim_z threadIdx) in
    if (u32 w <=? ix) || (u32 h <=? iy) || (u32 (i32 (d * c)) <=? iz) then Some conv
    else
      let cur_d := i32 (iz mod u32 d) in
      let idst := u32 (iz * u32 h * u32 w + iy * u32 w + ix) in
      b ← rd bias cur_d;
      v ← rd conv idst;
      wr conv idst (add v b).
End CostVolumeKernels.

(** ** Conversion kernels *)

Section ConversionKernels.
Context {F32 U16 : Type} {HC : HalfConv F32 U16}.

Definition fp32Tofp16Kernel (src : list F32) (size : Z) : kernel U16 :=
  fun blockIdx blockDim threadIdx dst =>
    let tid := u32 (dim_x blockIdx * dim_x blockDim + dim_x threadIdx) in
    if size <=? tid then Some dst
    else
      v ← rd src tid;
      wr dst tid (float_to_half_bits v).

Definition fp16Tofp32Kernel (src : list U16) (size : Z) : kernel F32 :=
  fun blockIdx blockDim threadIdx dst =>
    let tid := u32 (dim_x blockIdx * dim_x blockDim + dim_x threadIdx) in
    if size <=? tid then Some dst
    else
      v ← rd src tid;
      wr dst tid (half_bits_to_float v).
End ConversionKernels.

(** ** The runtime: launches, the last error and the debug barrier *)

Definition cudaError_t : Type := Z.
Definition cudaSuccess : cudaError_t := 0.

(** What the host code needs from the CUDA runtime: the status with which
    a launch configuration is refused ([cudaSuccess] when it is accepted)
    and the status [cudaStreamSynchronize] reports after a kernel faulted. *)
Record Runtime : Type := mkRuntime {
  launch_check : dim3 -> dim3 -> cudaError_t;
  fault_status : cudaError_t
}.

Inductive kernel_id : Type :=
| KcostVolumeCopy
| KcostVolumeCopyPad
| KaddDBiasTo3DConv
| Kfp32Tofp16
| Kfp16Tofp32.

(** The state an operation acts on: the destination buffer ([None] once a
    kernel has faulted on it), the error [cudaGetLastError] will report,
    and the launches issued so far. *)
Record Device (T : Type) : Type := mkDevice {
  dmem : option (list T);
  last_error : cudaError_t;
  launched : list (kernel_id * dim3 * dim3)
}.

Arguments mkDevice {T} _ _ _.
Arguments dmem {T} _.
Arguments last_error {T} _.
Arguments launched {T} _.

Section Host.
Context (NDEBUG : bool) (rt : Runtime).

(** [k<<<g_dim, b_dim, 0, stream>>>(...)] *)
Definition launch {T} (id : kernel_id) (k : kernel T) (g_dim b_dim : dim3)
    (dev : Device T) : Device T :=
  let e := launch_check rt g_dim b_dim in
  if e =? cudaSuccess
  then mkDevice (dmem dev ≫= run_grid k g_dim b_dim) (last_error dev)
                (launched dev ++ [(id, g_dim, b_dim)])
  else mkDevice (dmem dev) e (launched dev ++ [(id, g_dim, b_dim)]).

Definition cudaGetLastError {T} (dev : Device T) : cudaError_t * Device T :=
  (last_error dev, mkDevice (dmem dev) cudaSuccess (launched dev)).

Definition cudaStreamSynchronize {T} (dev : Device T) : cudaError_t :=
  match dmem dev with
  | Some _ => cudaSuccess
  | None => fault_status rt
  end.

(** [CHECKK(stream)], with [SYNC_AND_CHECK_STREAM] in debug builds; [k] is
    the rest of the calling function. *)
Definition CHECKK {T} (dev : Device T) (k : Device T -> host (cudaError_t * Device T))
    : host (cudaError_t * Device T) :=
  let '(status, dev) := cudaGetLastError dev in
  if negb (status =? cudaSuccess) then Ret (status, dev)
  else if NDEBUG then k dev
  else
    let status := cudaStreamSynchronize dev in
    if negb (status =? cudaSuccess) then Ret (status, dev) else k dev.

Section FloatOps.
Context {T : Type} {ET : Elem T}.

Definition computeCostVolume (left right : list T) (in_dims out_dims : Dims)
    (dev : Device T) : host (cudaError_t * Device T) :=
  assert NDEBUG (nbDims in_dims =? 3);;
  assert NDEBUG (nbDims out_dims =? 4);;
  let b_dim := Dim3 16 16 1 in
  gx ← getBlockCount NDEBUG (u32 (d in_dims 2)) (dim_x b_dim);
  gy ← getBlockCount NDEBUG (u32 (d in_dims 1)) (dim_y b_dim);
  gz ← getBlockCount NDEBUG (u32 (d in_dims 0)) (dim_z b_dim);
  let g_dim := Dim3 gx gy gz in
  let dev := launch KcostVolumeCopy
               (costVolumeCopyKernel left (d in_dims 0) (d in_dims 1) (d in_dims 2)
                  (d out_dims 0)) g_dim b_dim dev in
  CHECKK dev (fun dev =>
  let dev := launch KcostVolumeCopyPad
               (costVolumeCopyPadKernel right (d in_dims 0) (d in_dims 1) (d in_dims 2)
                  (d out_dims 0)) g_dim b_dim dev in
  CHECKK dev (fun dev =>
  Ret (cudaSuccess, dev))).

Definition addDBiasTo3DConv (bias : list T) (bias_dims conv_dims : Dims)
    (dev : Device T) : host (cudaError_t * Device T) :=
  assert NDEBUG (nbDims bias_dims =? 5);;
  assert NDEBUG (nbDims conv_dims =? 4);;
  assert NDEBUG (d bias_dims 0 =? 1);;
  assert NDEBUG (d bias_dims 2 =? d conv_dims 1);;
  let b_dim := Dim3 16 16 1 in
  gx ← getBlockCount NDEBUG (u32 (d conv_dims 3)) (dim_x b_dim);
  gy ← getBlockCount NDEBUG (u32 (d conv_dims 2)) (dim_y b_dim);
  gz ← getBlockCount NDEBUG (u32 (i32 (d conv_dims 0 * d conv_dims 1))) (dim_z b_dim);
  let g_dim := Dim3 gx gy gz in
  assert NDEBUG (dim_y g_dim <=? kMaxGridSizeY);;
  assert NDEBUG (dim_z g_dim <=? kMaxGridSizeZ);;
  let dev := launch KaddDBiasTo3DConv
               (addDBiasTo3DConvKernel bias (d conv_dims 0) (d conv_dims 1)
                  (d conv_dims 2) (d conv_dims 3)) g_dim b_dim dev in
  CHECKK dev (fun dev =>
  Ret (cudaSuccess, dev)).
End FloatOps.

Section Conversions.
Context {F32 U16 : Type} {HC : HalfConv F32 U16}.

Definition fp32Tofp16 (src : list F32) (size : Z) (dev : Device U16)
    : host (cudaError_t * Device U16) :=
  let b_dim := Dim3 256 1 1 in
  gx ← getBlockCount NDEBUG (u32 size) (dim_x b_dim);
  let g_dim := Dim3 gx 1 1 in
  let dev := launch Kfp32Tofp16 (fp32Tofp16Kernel src size) g_dim b_dim dev in
  CHECKK dev (fun dev =>
  Ret (cudaSuccess, dev)).

Definition fp16Tofp32 (src : list U16) (size : Z) (dev : Device F32)
    : host (cudaError_t * Device F32) :=
  let b_dim := Dim3 256 1 1 in
  gx ← getBlockCount NDEBUG (u32 size) (dim_x b_dim);
  let g_dim := Dim3 gx 1 1 in
  let dev := launch Kfp16Tofp32 (fp16Tofp32Kernel src size) g_dim b_dim dev in
  CHECKK dev (fun dev =>
  Ret (cudaSuccess, dev)).
End Conversions.
End Host.

(** A runtime with the launch limits of the devices the library targets:
    a grid of at most [2^31-1] by [65535] by [65535] blocks of at most
    1024 threads is accepted, anything else is refused with
    [cudaErrorInvalidConfiguration]. *)
Definition cudaErrorInvalidConfiguration : cudaError_t := 9.
Definition cudaErrorIllegalAddress : cudaError_t := 77.

Definition device_launch_check (g_dim b_dim : dim3) : cudaError_t :=
  if (1 <=? dim_x g_dim) && (dim_x g_dim <=? 2147483647)
     && (1 <=? dim_y g_dim) && (dim_y g_dim <=? 65535)
     && (1 <=? dim_z g_dim) && (dim_z g_dim <=? 65535)
     && (1 <=? dim_x b_dim) && (1 <=? dim_y b_dim) && (1 <=? dim_z b_dim)
     && (dim_x b_dim * dim_y b_dim * dim_z b_dim <=? 1024)
  then cudaSuccess
  else cudaErrorInvalidConfiguration.

Definition device_runtime : Runtime := mkRuntime device_launch_check cudaErrorIllegalAddress.

(** * The launch geometry helper *)

Lemma u32_small v : 0 <= v < 2 ^ 32 -> u32 v = v.
Proof. intros. unfold u32. apply Z.mod_small. lia. Qed.

Lemma u64_small v : 0 <= v < 2 ^ 64 -> u64 v = v.
Proof. intros. unfold u64. apply Z.mod_small. lia. Qed.

Lemma i32_small v : - 2 ^ 31 <= v < 2 ^ 31 -> i32 v = v.
Proof. intros. unfold i32. rewrite Z.mod_small by lia. lia. Qed.

(** The ceiling of a quotient, as the specification writes it. *)
Definition ceil_div (a b : Z) : Z := - ((- a) / b).

Lemma ceil_div_bounds a b :
  0 < b -> (ceil_div a b - 1) * b < a <= ceil_div a b * b.
Proof.
  intros Hb. unfold ceil_div.
  pose proof (Z.div_mod (- a) b ltac:(lia)) as E.
  pose proof (Z.mod_pos_bound (- a) b Hb) as M.
  nia.
Qed.

Lemma ceil_div_unique a b r :
  0 < b -> (r - 1) * b < a <= r * b -> ceil_div a b = r.
Proof.
  intros Hb Hr. pose proof (ceil_div_bounds a b Hb) as Hc.
  assert (~ ceil_div a b < r) by nia.
  assert (~ r < ceil_div a b) by nia.
  lia.
Qed.

Lemma ceil_div_floor a b :
  0 < b -> ceil_div a b = (a + b - 1) / b.
Proof.
  intros Hb. apply ceil_div_unique; [done|].
  pose proof (Z.div_mod (a + b - 1) b ltac:(lia)) as E.
  pose proof (Z.mod_pos_bound (a + b - 1) b Hb) as M.
  nia.
Qed.

Lemma getBlockCount_no_wrap NDEBUG total bs :
  0 < total -> 0 < bs -> total + bs - 1 < 2 ^ 32 ->
  getBlockCount NDEBUG total bs = Ret (ceil_div total bs).
Proof.
  intros Ht Hb Hw. unfold getBlockCount.
  destruct (Z.eqb_spec bs 0) as [->|_]; [lia|].
  rewrite u32_small by lia. rewrite <- ceil_div_floor by done.
  pose proof (ceil_div_bounds total bs Hb) as Hc.
  assert (1 <= ceil_div total bs) by nia.
  assert (ceil_div total bs <= total) by nia.
  rewrite u64_small by nia.
  unfold assert. destruct NDEBUG; [done|].
  destruct (Z.ltb_spec 0 (ceil_div total bs)); [|lia]. simpl.
  destruct (Z.leb_spec total (ceil_div total bs * bs)); [done|lia].
Qed.

(** C4, with the bound that keeps the sum in range: on inputs whose sum [total + blockSize - 1] still fits
    the 32-bit unsigned type, the block count is the ceiling of the quotient,
    it is at least one and the grid covers the whole extent; the three
    values of the specification are those of the code. *)
Theorem getBlockCount_ceil NDEBUG total bs :
  0 < total -> 0 < bs -> total + bs - 1 < 2 ^ 32 ->
  exists res,
    getBlockCount NDEBUG total bs = Ret res /\
    res = ceil_div total bs /\
    (res - 1) * bs < total /\
    1 <= res /\
    total <= res * bs /\
    getBlockCount NDEBUG 10 16 = Ret 1 /\
    getBlockCount NDEBUG 32 16 = Ret 2 /\
    getBlockCount NDEBUG 17 16 = Ret 2.
Proof.
  intros Ht Hb Hw. exists (ceil_div total bs).
  pose proof (ceil_div_bounds total bs Hb) as Hc.
  split; [by apply getBlockCount_no_wrap|].
  split; [done|]. split; [lia|]. split; [nia|]. split; [lia|].
  destruct NDEBUG; repeat split; reflexivity.
Qed.

Lemma getBlockCount_ceil_witness :
  exists res,
    getBlockCount false 1000 16 = Ret res /\
    res = ceil_div 1000 16 /\
    (res - 1) * 16 < 1000 /\
    1 <= res /\
    1000 <= res * 16 /\
    getBlockCount false 10 16 = Ret 1 /\
    getBlockCount false 32 16 = Ret 2 /\
    getBlockCount false 17 16 = Ret 2.
Proof. apply (getBlockCount_ceil false 1000 16); vm_compute; reflexivity. Defined.

(** C4 without that bound fails at the top of the 32-bit range: the sum
    [total_size + block_size - 1] wraps, the quotient is 0, and the first
    assertion fires (debug build) or 0 is returned (release build). *)
Lemma getBlockCount_wraps :
  ~ (forall NDEBUG total bs,
       0 < total < 2 ^ 32 -> 0 < bs < 2 ^ 32 ->
       exists res, getBlockCount NDEBUG total bs = Ret res /\
                   res = ceil_div total bs /\ 1 <= res /\ total <= res * bs).
Proof.
  intros H.
  destruct (H true 4294967295 16 ltac:(lia) ltac:(lia)) as (res & E & _ & Hres & _).
  vm_compute in E. injection E as <-. lia.
Qed.

(** * Properties *)

(** ** Buffers *)

Section Buffers.
Context {T : Type}.
Implicit Types (m : list T) (i j : Z) (v : T).

Lemma wr_in_range m i v :
  0 <= i < Z.of_nat (length m) -> wr m i v = Some (<[Z.to_nat i := v]> m).
Proof.
  intros Hi. unfold wr.
  destruct (Z.leb_spec 0 i); [|lia]. destruct (Z.ltb_spec i (Z.of_nat (length m))); [done|lia].
Qed.

Lemma wr_Some m i v m' :
  wr m i v = Some m' ->
  0 <= i < Z.of_nat (length m) /\ length m' = length m /\
  forall j, rd m' j = if j =? i then Some v else rd m j.
Proof.
  unfold wr. destruct (Z.leb_spec 0 i) as [Hi|]; [|done].
  destruct (Z.ltb_spec i (Z.of_nat (length m))) as [Hl|]; [|done].
  simpl. intros [= <-]. split; [lia|]. split; [by rewrite length_insert|].
  intros j. unfold rd. destruct (Z.eqb_spec j i) as [->|Hne].
  - destruct (Z.leb_spec 0 i); [|lia]. apply list_lookup_insert_eq. lia.
  - destruct (Z.leb_spec 0 j); [|done]. apply list_lookup_insert_ne. lia.
Qed.

Lemma rd_in_range m j : 0 <= j < Z.of_nat (length m) -> is_Some (rd m j).
Proof.
  intros Hj. unfold rd. destruct (Z.leb_spec 0 j); [|lia].
  apply lookup_lt_is_Some. lia.
Qed.

Lemma buffer_ext m1 m2 : (forall j, rd m1 j = rd m2 j) -> m1 = m2.
Proof.
  intros E. apply list_eq. intros i. specialize (E (Z.of_nat i)).
  unfold rd in E. destruct (Z.leb_spec 0 (Z.of_nat i)); [|lia].
  by rewrite Nat2Z.id in E.
Qed.
End Buffers.

(** ** The threads of a grid *)

Lemma elem_of_threads g b bi ti :
  (bi, ti) ∈ threads g b <->
  (0 <= dim_x bi < dim_x g /\ 0 <= dim_y bi < dim_y g /\ 0 <= dim_z bi < dim_z g) /\
  (0 <= dim_x ti < dim_x b /\ 0 <= dim_y ti < dim_y b /\ 0 <= dim_z ti < dim_z b).
Proof.
  unfold threads. destruct bi as [bx by_ bz], ti as [tx ty tz]. simpl.
  repeat setoid_rewrite list_elem_of_bind.
  setoid_rewrite list_elem_of_singleton.
  setoid_rewrite elem_of_seqZ.
  split.
  - intros (?&(?&(?&(?&(?&(?&E&?)&?)&?)&?)&?)&?). injection E as -> -> -> -> -> ->. lia.
  - intros [(?&?&?) (?&?&?)].
    exists bz. split; [|lia]. exists by_. split; [|lia]. exists bx. split; [|lia].
    exists tz. split; [|lia]. exists ty. split; [|lia]. exists tx. split; [done|lia].
Qed.

Lemma NoDup_threads g b : NoDup (threads g b).
Proof.
  unfold threads.
  repeat (apply NoDup_bind;
          [ intros ???; repeat setoid_rewrite list_elem_of_bind;
            setoid_rewrite list_elem_of_singleton; intros _ _ ??;
            repeat match goal with
                   | H : ex _ |- _ => destruct H
                   | H : _ /\ _ |- _ => destruct H
                   end; congruence
          | intros ? _ | apply NoDup_seqZ ]).
  apply NoDup_singleton.
Qed.

(** The global coordinates of a thread, before the 32-bit wrap. *)
Definition gid_x (b : dim3) (t : dim3 * dim3) : Z := dim_x t.1 * dim_x b + dim_x t.2.
Definition gid_y (b : dim3) (t : dim3 * dim3) : Z := dim_y t.1 * dim_y b + dim_y t.2.
Definition gid_z (b : dim3) (t : dim3 * dim3) : Z := dim_z t.1 * dim_z b + dim_z t.2.

Lemma gid_bounds g b t :
  t ∈ threads g b ->
  0 <= gid_x b t < dim_x g * dim_x b /\
  0 <= gid_y b t < dim_y g * dim_y b /\
  0 <= gid_z b t < dim_z g * dim_z b.
Proof.
  destruct t as [bi ti]. rewrite elem_of_threads. unfold gid_x, gid_y, gid_z. simpl.
  intros [(?&?&?) (?&?&?)]. nia.
Qed.

Lemma gid_inj g b t1 t2 :
  t1 ∈ threads g b -> t2 ∈ threads g b ->
  gid_x b t1 = gid_x b t2 -> gid_y b t1 = gid_y b t2 -> gid_z b t1 = gid_z b t2 ->
  t1 = t2.
Proof.
  destruct t1 as [[bx1 by1 bz1] [tx1 ty1 tz1]], t2 as [[bx2 by2 bz2] [tx2 ty2 tz2]].
  rewrite !elem_of_threads. unfold gid_x, gid_y, gid_z. simpl.
  intros [(?&?&?) (?&?&?)] [(?&?&?) (?&?&?)] Ex Ey Ez.
  assert (bx1 = bx2) by nia. assert (by1 = by2) by nia. assert (bz1 = bz2) by nia.
  subst. f_equal; f_equal; lia.
Qed.

Lemma gid_surj g b ix iy iz :
  0 < dim_x b -> 0 < dim_y b -> 0 < dim_z b ->
  0 <= ix < dim_x g * dim_x b ->
  0 <= iy < dim_y g * dim_y b ->
  0 <= iz < dim_z g * dim_z b ->
  exists t, t ∈ threads g b /\ gid_x b t = ix /\ gid_y b t = iy /\ gid_z b t = iz.
Proof.
  intros Hx Hy Hz Hix Hiy Hiz.
  exists (Dim3 (ix / dim_x b) (iy / dim_y b) (iz / dim_z b),
          Dim3 (ix mod dim_x b) (iy mod dim_y b) (iz mod dim_z b)).
  pose proof (Z.div_mod ix (dim_x b) ltac:(lia)).
  pose proof (Z.div_mod iy (dim_y b) ltac:(lia)).
  pose proof (Z.div_mod iz (dim_z b) ltac:(lia)).
  pose proof (Z.mod_pos_bound ix (dim_x b) Hx).
  pose proof (Z.mod_pos_bound iy (dim_y b) Hy).
  pose proof (Z.mod_pos_bound iz (dim_z b) Hz).
  rewrite elem_of_threads. unfold gid_x, gid_y, gid_z. simpl.
  assert (0 <= ix / dim_x b < dim_x g) by (split; [apply Z.div_pos; lia | apply Z.div_lt_upper_bound; lia]).
  assert (0 <= iy / dim_y b < dim_y g) by (split; [apply Z.div_pos; lia | apply Z.div_lt_upper_bound; lia]).
  assert (0 <= iz / dim_z b < dim_z g) by (split; [apply Z.div_pos; lia | apply Z.div_lt_upper_bound; lia]).
  repeat split; lia.
Qed.

(** ** Running the threads of a launch

    A thread [t] that changes exactly the elements [j] with [W t j], to a
    value [G j] of the old one; when no element belongs to two threads, the
    whole launch changes exactly the elements some thread owns. *)

Section Pointwise.
Context {T : Type}.
Variables (k : dim3 -> dim3 -> list T -> option (list T)) (n : nat).
Variables (W : dim3 * dim3 -> Z -> bool) (G : Z -> option T -> option T).

Definition thread_acts (t : dim3 * dim3) : Prop :=
  forall m, length m = n ->
  exists m', k t.1 t.2 m = Some m' /\ length m' = n /\
    forall j, rd m' j = if W t j then G j (rd m j) else rd m j.

Lemma run_threads_pointwise ts :
  NoDup ts ->
  (forall t, t ∈ ts -> thread_acts t) ->
  (forall j t1 t2, t1 ∈ ts -> t2 ∈ ts -> W t1 j = true -> W t2 j = true -> t1 = t2) ->
  forall m, length m = n ->
  exists m', run_threads k ts m = Some m' /\ length m' = n /\
    forall j, rd m' j = if existsb (fun t => W t j) ts then G j (rd m j) else rd m j.
Proof.
  induction 1 as [|t ts Hnotin Hnd IH]; intros Hact Huniq m Hlen.
  - exists m. simpl. auto.
  - destruct (Hact t ltac:(left) m Hlen) as (m1 & E1 & L1 & P1).
    destruct (IH (fun t' Ht' => Hact t' (list_elem_of_further _ _ _ Ht'))
                 (fun j t1 t2 H1 H2 => Huniq j t1 t2 (list_elem_of_further _ _ _ H1)
                                         (list_elem_of_further _ _ _ H2))
                 m1 L1) as (m' & E' & L' & P').
    exists m'. split; [simpl; rewrite E1; exact E'|]. split; [done|].
    intros j. rewrite P', P1. simpl.
    destruct (W t j) eqn:Wt; simpl; [|done].
    destruct (existsb (fun t0 => W t0 j) ts) eqn:Ex; [|done].
    apply existsb_exists in Ex as (t' & Hin & Wt').
    apply list_elem_of_In in Hin.
    assert (t = t') as <- by (apply (Huniq j); [left|by right|done|done]).
    done.
Qed.
End Pointwise.

(** The order in which the threads run does not matter. *)
Lemma run_threads_order {T} (k : dim3 -> dim3 -> list T -> option (list T)) n W G ts ts' :
  ts ≡ₚ ts' -> NoDup ts ->
  (forall t, t ∈ ts -> thread_acts k n W G t) ->
  (forall j t1 t2, t1 ∈ ts -> t2 ∈ ts -> W t1 j = true -> W t2 j = true -> t1 = t2) ->
  forall m, length m = n -> run_threads k ts' m = run_threads k ts m.
Proof.
  intros Hp Hnd Hact Huniq m Hm.
  destruct (run_threads_pointwise k n W G ts Hnd Hact Huniq m Hm) as (m1 & E1 & L1 & P1).
  destruct (run_threads_pointwise k n W G ts') with (m := m) as (m2 & E2 & L2 & P2).
  - by rewrite <- Hp.
  - intros t Ht. apply Hact. by rewrite Hp.
  - intros j t1 t2 H1 H2. apply Huniq; by rewrite Hp.
  - done.
  - rewrite E1, E2. f_equal. apply buffer_ext. intros j. rewrite P1, P2.
    replace (existsb (fun t => W t j) ts') with (existsb (fun t => W t j) ts); [done|].
    apply eq_true_iff_eq. rewrite !existsb_exists.
    split; intros (t & Hin & Hw); exists t; (split; [|done]);
      apply list_elem_of_In; apply list_elem_of_In in Hin; [by rewrite <- Hp | by rewrite Hp].
Qed.

(** Membership of an element in the [k]-th period of a strided walk
    starting at offset [i]. *)
Definition in_stride (stride i lo hi j : Z) : bool :=
  (0 <=? j) && (j mod stride =? i) && (lo <=? j / stride) && (j / stride <? hi).

Lemma stride_index stride i k j :
  0 <= i < stride -> 0 <= k ->
  (j =? i + k * stride) = (0 <=? j) && (j mod stride =? i) && (j / stride =? k).
Proof.
  intros Hi Hk.
  destruct (Z.eqb_spec j (i + k * stride)) as [->|Hne].
  - rewrite Z.mod_add, Z.div_add, Z.mod_small, Z.div_small by lia.
    destruct (Z.leb_spec 0 (i + k * stride)); [|nia].
    rewrite !Z.eqb_refl. done.
  - destruct (Z.leb_spec 0 j); [|done].
    destruct (Z.eqb_spec (j mod stride) i) as [Hm|]; [|done].
    destruct (Z.eqb_spec (j / stride) k) as [Hd|]; [|done].
    pose proof (Z.div_mod j stride ltac:(lia)). nia.
Qed.

Lemma in_stride_step stride i lo hi j :
  0 <= i < stride -> 0 <= lo < hi ->
  in_stride stride i lo hi j =
  if j =? i + lo * stride then true else in_stride stride i (lo + 1) hi j.
Proof.
  intros Hi Hlo. rewrite (stride_index stride i lo j) by lia. unfold in_stride.
  destruct (0 <=? j); [|done]. destruct (j mod stride =? i); [|done]. simpl.
  destruct (Z.eqb_spec (j / stride) lo) as [->|].
  - destruct (Z.leb_spec lo lo); [|lia]. destruct (Z.ltb_spec lo hi); [done|lia].
  - destruct (Z.leb_spec lo (j / stride)), (Z.leb_spec (lo + 1) (j / stride)); try lia; done.
Qed.

Lemma in_stride_empty stride i lo j : in_stride stride i lo lo j = false.
Proof.
  unfold in_stride. destruct (Z.leb_spec lo (j / stride)), (Z.ltb_spec (j / stride) lo);
    try lia; by rewrite ?andb_false_r.
Qed.

Lemma in_stride_mod stride i lo hi j :
  in_stride stride i lo hi j = true -> j mod stride = i.
Proof.
  unfold in_stride. rewrite !andb_true_iff, Z.eqb_eq. tauto.
Qed.

Section Loops.
Context {T : Type} {ET : Elem T}.

Lemma copy_loop_spec (n : nat) (val : T) stride i : forall lo (dst : list T),
  0 <= i < stride -> 0 <= lo ->
  (lo + Z.of_nat n) * stride <= Z.of_nat (length dst) ->
  exists dst', copy_loop n val (i + lo * stride) stride dst = Some dst' /\
    length dst' = length dst /\
    forall j, rd dst' j =
              if in_stride stride i lo (lo + Z.of_nat n) j then Some val else rd dst j.
Proof.
  induction n as [|n IH]; intros lo dst Hi Hlo Hlen.
  - exists dst. split; [done|]. split; [done|]. intros j.
    by rewrite Z.add_0_r, in_stride_empty.
  - simpl copy_loop.
    rewrite wr_in_range by nia. simpl.
    replace (i + lo * stride + stride) with (i + (lo + 1) * stride) by lia.
    destruct (IH (lo + 1) (<[Z.to_nat (i + lo * stride):=val]> dst) Hi ltac:(lia))
      as (dst' & E & L & P).
    { rewrite length_insert. lia. }
    exists dst'. split; [done|]. split; [by rewrite L, length_insert|].
    intros j. rewrite P.
    rewrite (in_stride_step stride i lo (lo + Z.of_nat (S n))) by lia.
    replace (lo + 1 + Z.of_nat n) with (lo + Z.of_nat (S n)) by lia.
    destruct (wr_Some dst (i + lo * stride) val _ (wr_in_range dst (i + lo * stride) val ltac:(nia)))
      as (_ & _ & R).
    rewrite R.
    destruct (Z.eqb_spec j (i + lo * stride)) as [->|]; [|done].
    destruct (in_stride stride i (lo + 1) (lo + Z.of_nat (S n)) (i + lo * stride)); done.
Qed.

(** The value the padding loop stores at period [k] of the walk. *)
Definition pad_value (src : list T) (ix isrc k : Z) : option T :=
  if ix <? k then Some zero else rd src (isrc - k).

Lemma pad_loop_spec (n : nat) (src : list T) ix isrc stride i : forall lo (dst : list T),
  0 <= i < stride -> 0 <= lo -> lo + Z.of_nat n <= 2 ^ 31 ->
  0 <= ix <= isrc -> isrc < Z.of_nat (length src) -> isrc < 2 ^ 32 ->
  (lo + Z.of_nat n) * stride <= Z.of_nat (length dst) ->
  exists dst', pad_loop n src ix isrc lo (i + lo * stride) stride dst = Some dst' /\
    length dst' = length dst /\
    forall j, rd dst' j =
              if in_stride stride i lo (lo + Z.of_nat n) j
              then pad_value src ix isrc (j / stride) else rd dst j.
Proof.
  induction n as [|n IH]; intros lo dst Hi Hlo Hn Hix Hsrc Hsrc32 Hlen.
  - exists dst. split; [done|]. split; [done|]. intros j.
    by rewrite Z.add_0_r, in_stride_empty.
  - simpl pad_loop. rewrite (u32_small lo) by lia.
    assert (exists v, (if ix <? lo then Some zero else rd src (u64 (isrc - lo))) = Some v
                      /\ pad_value src ix isrc lo = Some v) as (v & -> & Hv).
    { unfold pad_value. destruct (Z.ltb_spec ix lo); [by eexists|].
      rewrite u64_small by lia.
      destruct (rd_in_range src (isrc - lo) ltac:(lia)) as [v Hv]. eauto. }
    simpl. rewrite wr_in_range by nia. simpl.
    replace (i + lo * stride + stride) with (i + (lo + 1) * stride) by lia.
    destruct (IH (lo + 1) (<[Z.to_nat (i + lo * stride):=v]> dst) Hi ltac:(lia) ltac:(lia)
                 Hix Hsrc Hsrc32)
      as (dst' & E & L & P).
    { rewrite length_insert. lia. }
    exists dst'. split; [done|]. split; [by rewrite L, length_insert|].
    intros j. rewrite P.
    rewrite (in_stride_step stride i lo (lo + Z.of_nat (S n))) by lia.
    replace (lo + 1 + Z.of_nat n) with (lo + Z.of_nat (S n)) by lia.
    destruct (wr_Some dst (i + lo * stride) v _ (wr_in_range dst (i + lo * stride) v ltac:(nia)))
      as (_ & _ & R).
    rewrite R.
    destruct (Z.eqb_spec j (i + lo * stride)) as [->|]; [|done].
    rewrite Z.div_add, Z.div_small by lia. rewrite Z.add_0_l, Hv.
    destruct (in_stride stride i (lo + 1) (lo + Z.of_nat (S n)) (i + lo * stride)); [|done].
    done.
Qed.
End Loops.

(** ** Row-major indices [iz * h * w + iy * w + ix] *)

Definition lin (h w : Z) (b : dim3) (t : dim3 * dim3) : Z :=
  gid_z b t * h * w + gid_y b t * w + gid_x b t.

(** The guard of the kernels, on the global coordinates of a thread. *)
Definition active (c h w : Z) (b : dim3) (t : dim3 * dim3) : bool :=
  (gid_x b t <? w) && (gid_y b t <? h) && (gid_z b t <? c).

Lemma index_bound c h w ix iy iz :
  0 <= ix < w -> 0 <= iy < h -> 0 <= iz < c ->
  0 <= iz * h * w + iy * w + ix < c * h * w.
Proof.
  intros Hx Hy Hz.
  assert (0 <= iy * w + ix < h * w) by nia.
  assert (iz * h * w = iz * (h * w)) by lia.
  assert (c * h * w = c * (h * w)) by lia.
  nia.
Qed.

Lemma index_inj h w x1 y1 z1 x2 y2 z2 :
  0 <= x1 < w -> 0 <= y1 < h -> 0 <= x2 < w -> 0 <= y2 < h ->
  z1 * h * w + y1 * w + x1 = z2 * h * w + y2 * w + x2 ->
  x1 = x2 /\ y1 = y2 /\ z1 = z2.
Proof.
  intros Hx1 Hy1 Hx2 Hy2 E.
  assert (E' : x1 + (z1 * h + y1) * w = x2 + (z2 * h + y2) * w) by lia.
  assert (x1 = x2).
  { pose proof (f_equal (fun v => v mod w) E') as M. simpl in M.
    rewrite !Z.mod_add, !Z.mod_small in M by lia. done. }
  subst x2. assert (E2 : y1 + z1 * h = y2 + z2 * h) by nia.
  assert (y1 = y2).
  { pose proof (f_equal (fun v => v mod h) E2) as M. simpl in M.
    rewrite !Z.mod_add, !Z.mod_small in M by lia. done. }
  subst y2. split; [done|]. split; [done|]. nia.
Qed.

Lemma index_decode c h w i :
  0 < h -> 0 < w -> 0 <= i < c * h * w ->
  exists ix iy iz,
    0 <= ix < w /\ 0 <= iy < h /\ 0 <= iz < c /\ i = iz * h * w + iy * w + ix.
Proof.
  intros Hh Hw Hi.
  exists (i mod w), (i / w mod h), (i / w / h).
  pose proof (Z.div_mod i w ltac:(lia)).
  pose proof (Z.mod_pos_bound i w Hw).
  pose proof (Z.div_mod (i / w) h ltac:(lia)).
  pose proof (Z.mod_pos_bound (i / w) h Hh).
  assert (0 <= i / w) by (apply Z.div_pos; lia).
  assert (0 <= i / w / h) by (apply Z.div_pos; lia).
  assert (i / w < c * h) by (apply Z.div_lt_upper_bound; lia).
  assert (i / w / h < c) by (apply Z.div_lt_upper_bound; lia).
  repeat split; try lia; nia.
Qed.

Lemma index_row h w ix iy iz :
  0 <= ix < w -> (iz * h * w + iy * w + ix) mod w = ix.
Proof.
  intros Hx. replace (iz * h * w + iy * w + ix) with (ix + (iz * h + iy) * w) by lia.
  rewrite Z.mod_add by lia. apply Z.mod_small. lia.
Qed.

Lemma index_plane h w ix iy iz :
  0 <= ix < w -> 0 <= iy < h -> (iz * h * w + iy * w + ix) / (h * w) = iz.
Proof.
  intros Hx Hy.
  replace (iz * h * w + iy * w + ix) with ((iy * w + ix) + iz * (h * w)) by lia.
  rewrite Z.div_add by nia. rewrite Z.div_small by nia. lia.
Qed.

(** A grid large enough for a tensor of extents [c], [h], [w] and small
    enough for the 32-bit thread coordinates. *)
Record grid_fits (c h w : Z) (g b : dim3) : Prop := {
  fits_bx : 0 < dim_x b; fits_by : 0 < dim_y b; fits_bz : 0 < dim_z b;
  fits_x : w <= dim_x g * dim_x b <= 2 ^ 32;
  fits_y : h <= dim_y g * dim_y b <= 2 ^ 32;
  fits_z : c <= dim_z g * dim_z b <= 2 ^ 32
}.

Section Ownership.
Variables (c h w : Z) (g b : dim3).
Hypothesis (Hc : 0 < c) (Hh : 0 < h) (Hw : 0 < w).
Hypothesis (Hfit : grid_fits c h w g b).

Lemma active_lin t :
  t ∈ threads g b -> active c h w b t = true ->
  (0 <= gid_x b t < w /\ 0 <= gid_y b t < h /\ 0 <= gid_z b t < c) /\
  0 <= lin h w b t < c * h * w.
Proof.
  intros Ht Ha. pose proof (gid_bounds g b t Ht) as (?&?&?).
  unfold active in Ha. apply andb_prop in Ha as [Ha Hz]. apply andb_prop in Ha as [Hx Hy].
  apply Z.ltb_lt in Hx, Hy, Hz.
  split; [lia|]. apply index_bound; lia.
Qed.

Lemma active_lin_inj t1 t2 :
  t1 ∈ threads g b -> t2 ∈ threads g b ->
  active c h w b t1 = true -> active c h w b t2 = true ->
  lin h w b t1 = lin h w b t2 -> t1 = t2.
Proof.
  intros H1 H2 A1 A2 E.
  destruct (active_lin t1 H1 A1) as [(?&?&?) _].
  destruct (active_lin t2 H2 A2) as [(?&?&?) _].
  unfold lin in E. apply index_inj in E as (?&?&?); [|lia..].
  by apply (gid_inj g b).
Qed.

Lemma active_lin_surj i :
  0 <= i < c * h * w ->
  exists t, t ∈ threads g b /\ active c h w b t = true /\ lin h w b t = i.
Proof.
  intros Hi. destruct (index_decode c h w i Hh Hw Hi) as (ix & iy & iz & Hx & Hy & Hz & ->).
  destruct Hfit.
  destruct (gid_surj g b ix iy iz) as (t & Ht & Ex & Ey & Ez); [lia..|].
  exists t. split; [done|]. unfold active, lin. rewrite Ex, Ey, Ez.
  split; [|done].
  destruct (Z.ltb_spec ix w), (Z.ltb_spec iy h), (Z.ltb_spec iz c); try lia; done.
Qed.

(** The 32-bit coordinates a kernel computes are the global coordinates. *)
Lemma gid_u32 t :
  t ∈ threads g b ->
  u32 (dim_x t.1 * dim_x b + dim_x t.2) = gid_x b t /\
  u32 (dim_y t.1 * dim_y b + dim_y t.2) = gid_y b t /\
  u32 (dim_z t.1 * dim_z b + dim_z t.2) = gid_z b t.
Proof.
  intros Ht. pose proof (gid_bounds g b t Ht) as (?&?&?). destruct Hfit.
  unfold gid_x, gid_y, gid_z in *. rewrite !u32_small by lia. done.
Qed.

(** Some thread of the grid owns [j], for an ownership that is a function
    [P] of the linear index. *)
Lemma existsb_owner (P : Z -> Z -> bool) (sel : Z -> Z) (dom : Z -> bool) j :
  (forall i, 0 <= i < c * h * w -> P i j = true <-> dom j = true /\ sel j = i) ->
  (dom j = true -> 0 <= sel j) ->
  existsb (fun t => active c h w b t && P (lin h w b t) j) (threads g b)
  = dom j && (sel j <? c * h * w).
Proof.
  intros HP Hdom. apply eq_true_iff_eq. rewrite existsb_exists, andb_true_iff, Z.ltb_lt.
  split.
  - intros (t & Hin & Hown). apply list_elem_of_In in Hin.
    apply andb_prop in Hown as [Ha HPt].
    destruct (active_lin t Hin Ha) as [_ Hl].
    apply HP in HPt as [? ?]; [|done]. split; [done|lia].
  - intros [Hd Hs]. destruct (active_lin_surj (sel j)) as (t & Hin & Ha & El); [auto with lia|].
    exists t. split; [by apply list_elem_of_In|]. rewrite Ha, El. simpl.
    apply HP; auto with lia.
Qed.
End Ownership.

Lemma guard_active c h w b t :
  (w <=? gid_x b t) || (h <=? gid_y b t) || (c <=? gid_z b t) = negb (active c h w b t).
Proof.
  unfold active.
  destruct (Z.leb_spec w (gid_x b t)), (Z.ltb_spec (gid_x b t) w); try lia;
  destruct (Z.leb_spec h (gid_y b t)), (Z.ltb_spec (gid_y b t) h); try lia;
  destruct (Z.leb_spec c (gid_z b t)), (Z.ltb_spec (gid_z b t) c); try lia; done.
Qed.

Lemma extents_le_volume c h w :
  0 < c -> 0 < h -> 0 < w -> c <= c * h * w /\ h <= c * h * w /\ w <= c * h * w.
Proof. intros. assert (0 < c * h) by nia. assert (0 < h * w) by nia. repeat split; nia. Qed.

(** ** The two launches of the cost volume *)

Section CostVolumeLaunches.
Context {T : Type} {ET : Elem T}.
Variables (C H W D : Z) (g b : dim3).
Hypothesis (HC : 0 < C) (HH : 0 < H) (HW : 0 < W) (HD : 0 <= D <= INT32_MAX).
Hypothesis (Hvol : 2 * (C * H * W) <= INT32_MAX).
Hypothesis (Hfit : grid_fits C H W g b).

Local Abbreviation CHW := (C * H * W).

Definition own_left (t : dim3 * dim3) (j : Z) : bool :=
  active C H W b t && in_stride (2 * CHW) (lin H W b t) 0 D j.

Definition val_left (left : list T) (j : Z) (_ : option T) : option T :=
  rd left (j mod (2 * CHW)).

Definition own_right (t : dim3 * dim3) (j : Z) : bool :=
  active C H W b t && in_stride (2 * CHW) (CHW + lin H W b t) 0 D j.

Definition val_right (right : list T) (j : Z) (_ : option T) : option T :=
  pad_value right ((j mod (2 * CHW) - CHW) mod W) (j mod (2 * CHW) - CHW) (j / (2 * CHW)).

Lemma copy_thread_acts (left : list T) n t :
  CHW <= Z.of_nat (length left) ->
  t ∈ threads g b -> D * (2 * CHW) <= Z.of_nat n ->
  thread_acts (fun bi ti => costVolumeCopyKernel left C H W D bi b ti) n own_left
              (val_left left) t.
Proof.
  intros Hleft Ht Hn m Hm. unfold costVolumeCopyKernel, own_left.
  destruct (gid_u32 C H W g b Hfit t Ht) as (-> & -> & ->).
  destruct (extents_le_volume C H W HC HH HW) as (?&?&?). unfold INT32_MAX in *.
  rewrite (u32_small W), (u32_small H), (u32_small C) by lia.
  rewrite guard_active.
  destruct (active C H W b t) eqn:Ha; simpl.
  2:{ exists m. auto. }
  destruct (active_lin C H W g b t Ht Ha) as [(Hx & Hy & Hz) Hl].
  fold (lin H W b t).
  rewrite (u32_small (lin H W b t)) by lia.
  replace (2 * C * H * W) with (2 * CHW) by lia.
  rewrite i32_small, u64_small by lia.
  destruct (rd_in_range left (lin H W b t) ltac:(lia)) as [val Hval].
  rewrite Hval. simpl.
  destruct (copy_loop_spec (Z.to_nat D) val (2 * CHW) (lin H W b t) 0 m) as (m' & E & L & P);
    [lia | lia | rewrite Z2Nat.id by lia; lia |].
  rewrite Z.mul_0_l, Z.add_0_r in E.
  exists m'. split; [done|]. split; [lia|].
  intros j. rewrite P, Z2Nat.id, Z.add_0_l by lia.
  destruct (in_stride (2 * CHW) (lin H W b t) 0 D j) eqn:Hin; [|done].
  unfold val_left, in_stride in *.
  repeat (apply andb_prop in Hin as [Hin ?]).
  by replace (j mod (2 * CHW)) with (lin H W b t) by (symmetry; by apply Z.eqb_eq).
Qed.

Lemma pad_thread_acts (right : list T) n t :
  CHW <= Z.of_nat (length right) ->
  t ∈ threads g b -> D * (2 * CHW) <= Z.of_nat n ->
  thread_acts (fun bi ti => costVolumeCopyPadKernel right C H W D bi b ti) n
              own_right (val_right right) t.
Proof.
  intros Hright Ht Hn m Hm. unfold costVolumeCopyPadKernel, own_right.
  destruct (gid_u32 C H W g b Hfit t Ht) as (-> & -> & ->).
  destruct (extents_le_volume C H W HC HH HW) as (?&?&?). unfold INT32_MAX in *.
  rewrite (u32_small W), (u32_small H), (u32_small C) by lia.
  rewrite guard_active.
  destruct (active C H W b t) eqn:Ha; simpl.
  2:{ exists m. auto. }
  destruct (active_lin C H W g b t Ht Ha) as [(Hx & Hy & Hz) Hl].
  fold (lin H W b t).
  rewrite (u32_small (lin H W b t)) by lia.
  rewrite (i32_small CHW), (u64_small CHW) by lia.
  rewrite (u64_small (lin H W b t + CHW)), (u64_small (CHW * 2)) by lia.
  destruct (pad_loop_spec (Z.to_nat D) right (gid_x b t) (lin H W b t) (2 * CHW)
              (CHW + lin H W b t) 0 m) as (m' & E & L & P);
    [lia | lia | rewrite Z2Nat.id by lia; lia
    | unfold lin; split; [lia | nia] | lia | lia
    | rewrite Z2Nat.id by lia; lia |].
  rewrite Z.mul_0_l, Z.add_0_r in E.
  replace (lin H W b t + CHW) with (CHW + lin H W b t) by lia.
  replace (CHW * 2) with (2 * CHW) by lia.
  exists m'. split; [done|]. split; [lia|].
  intros j. rewrite P, Z2Nat.id, Z.add_0_l by lia.
  destruct (in_stride (2 * CHW) (CHW + lin H W b t) 0 D j) eqn:Hin; [|done].
  unfold val_right, in_stride in *.
  repeat (apply andb_prop in Hin as [Hin ?]).
  replace (j mod (2 * CHW)) with (CHW + lin H W b t) by (symmetry; by apply Z.eqb_eq).
  replace (CHW + lin H W b t - CHW) with (lin H W b t) by lia.
  assert (lin H W b t mod W = gid_x b t) as -> by (apply index_row; lia). done.
Qed.

(** The destination indices of the two halves of the slices [0 .. D-1]. *)
Definition left_region (j : Z) : bool :=
  (0 <=? j) && (j mod (2 * CHW) <? CHW) && (j / (2 * CHW) <? D).

Definition right_region (j : Z) : bool :=
  (0 <=? j) && (CHW <=? j mod (2 * CHW)) && (j / (2 * CHW) <? D).

Lemma own_left_unique j t1 t2 :
  t1 ∈ threads g b -> t2 ∈ threads g b ->
  own_left t1 j = true -> own_left t2 j = true -> t1 = t2.
Proof.
  unfold own_left. intros H1 H2 [A1 O1]%andb_prop [A2 O2]%andb_prop.
  apply in_stride_mod in O1, O2.
  apply (active_lin_inj C H W g b); try done. lia.
Qed.

Lemma own_right_unique j t1 t2 :
  t1 ∈ threads g b -> t2 ∈ threads g b ->
  own_right t1 j = true -> own_right t2 j = true -> t1 = t2.
Proof.
  unfold own_right. intros H1 H2 [A1 O1]%andb_prop [A2 O2]%andb_prop.
  apply in_stride_mod in O1, O2.
  apply (active_lin_inj C H W g b); try done. lia.
Qed.

Lemma own_left_region j :
  existsb (fun t => own_left t j) (threads g b) = left_region j.
Proof.
  unfold own_left.
  rewrite (existsb_owner C H W g b HH HW Hfit
             (fun i j => in_stride (2 * CHW) i 0 D j)
             (fun j => j mod (2 * CHW))
             (fun j => (0 <=? j) && (j / (2 * CHW) <? D))).
  - unfold left_region. destruct (0 <=? j), (j / (2 * CHW) <? D), (j mod (2 * CHW) <? CHW); done.
  - intros i Hi. unfold in_stride.
    rewrite !andb_true_iff, !Z.leb_le, !Z.ltb_lt, Z.eqb_eq.
    split; [intros (((?&?)&?)&?); auto|].
    intros [[? ?] ?]. repeat split; try done. apply Z.div_pos; lia.
  - intros _. apply Z.mod_pos_bound. lia.
Qed.

Lemma own_right_region j :
  existsb (fun t => own_right t j) (threads g b) = right_region j.
Proof.
  unfold own_right.
  rewrite (existsb_owner C H W g b HH HW Hfit
             (fun i j => in_stride (2 * CHW) (CHW + i) 0 D j)
             (fun j => j mod (2 * CHW) - CHW)
             right_region).
  - pose proof (Z.mod_pos_bound j (2 * CHW) ltac:(lia)).
    destruct (Z.ltb_spec (j mod (2 * CHW) - CHW) CHW); [|lia]. apply andb_true_r.
  - intros i Hi. unfold in_stride, right_region.
    rewrite !andb_true_iff, !Z.leb_le, !Z.ltb_lt, Z.eqb_eq.
    split; [intros (((?&?)&?)&?); repeat split; auto; lia|].
    intros [[[? ?] ?] ?]. repeat split; try done; [lia|]. apply Z.div_pos; lia.
  - unfold right_region. rewrite !andb_true_iff, !Z.leb_le. lia.
Qed.

(** What the left-copy launch leaves in the destination buffer. *)
Lemma copy_grid_spec (left dst : list T) :
  CHW <= Z.of_nat (length left) ->
  D * (2 * CHW) <= Z.of_nat (length dst) ->
  exists dst', run_grid (costVolumeCopyKernel left C H W D) g b dst = Some dst' /\
    length dst' = length dst /\
    forall j, rd dst' j = if left_region j then rd left (j mod (2 * CHW)) else rd dst j.
Proof.
  intros Hleft Hdst. unfold run_grid.
  destruct (run_threads_pointwise
              (fun bi ti => costVolumeCopyKernel left C H W D bi b ti)
              (length dst) own_left (val_left left) (threads g b) (NoDup_threads g b))
    with (m := dst) as (dst' & E & L & P).
  - intros t Ht. by apply copy_thread_acts.
  - intros j t1 t2. apply own_left_unique.
  - done.
  - exists dst'. split; [done|]. split; [done|]. intros j.
    by rewrite P, own_left_region.
Qed.

(** What the right-pad launch leaves in the destination buffer. *)
Lemma pad_grid_spec (right dst : list T) :
  CHW <= Z.of_nat (length right) ->
  D * (2 * CHW) <= Z.of_nat (length dst) ->
  exists dst', run_grid (costVolumeCopyPadKernel right C H W D) g b dst = Some dst' /\
    length dst' = length dst /\
    forall j, rd dst' j = if right_region j then val_right right j None else rd dst j.
Proof.
  intros Hright Hdst. unfold run_grid.
  destruct (run_threads_pointwise
              (fun bi ti => costVolumeCopyPadKernel right C H W D bi b ti)
              (length dst) own_right (val_right right) (threads g b) (NoDup_threads g b))
    with (m := dst) as (dst' & E & L & P).
  - intros t Ht. by apply pad_thread_acts.
  - intros j t1 t2. apply own_right_unique.
  - done.
  - exists dst'. split; [done|]. split; [done|]. intros j.
    by rewrite P, own_right_region.
Qed.



End CostVolumeLaunches.

(** ** Host operations *)

Section HostLemmas.
Variables (NDEBUG : bool) (rt : Runtime).
Context {T : Type}.

Lemma launch_accepted id (k : kernel T) g b dev :
  launch_check rt g b = cudaSuccess ->
  launch rt id k g b dev =
  mkDevice (dmem dev ≫= run_grid k g b) (last_error dev) (launched dev ++ [(id, g, b)]).
Proof. intros E. unfold launch. by rewrite E. Qed.

Lemma launch_refused id (k : kernel T) g b dev :
  launch_check rt g b <> cudaSuccess ->
  launch rt id k g b dev =
  mkDevice (dmem dev) (launch_check rt g b) (launched dev ++ [(id, g, b)]).
Proof.
  intros E. unfold launch. destruct (Z.eqb_spec (launch_check rt g b) cudaSuccess); done.
Qed.

Lemma CHECKK_pass (m : list T) l k :
  CHECKK NDEBUG rt (mkDevice (Some m) cudaSuccess l) k = k (mkDevice (Some m) cudaSuccess l).
Proof. unfold CHECKK, cudaGetLastError, cudaStreamSynchronize. simpl. by destruct NDEBUG. Qed.

Lemma CHECKK_error (dev : Device T) k :
  last_error dev <> cudaSuccess ->
  CHECKK NDEBUG rt dev k = Ret (last_error dev, mkDevice (dmem dev) cudaSuccess (launched dev)).
Proof.
  intros E. unfold CHECKK, cudaGetLastError.
  destruct (Z.eqb_spec (last_error dev) cudaSuccess); done.
Qed.

Lemma assert_pass (cond : bool) :
  NDEBUG = true \/ cond = true -> assert NDEBUG cond = Ret tt.
Proof. unfold assert. intros [-> | ->]; [done|]. by destruct NDEBUG. Qed.

Lemma getBlockCount_extent v bs :
  0 < v <= INT32_MAX -> 0 < bs <= 1024 ->
  getBlockCount NDEBUG (u32 v) bs = Ret (ceil_div v bs).
Proof.
  unfold INT32_MAX. intros Hv Hb. rewrite u32_small by lia.
  apply getBlockCount_no_wrap; lia.
Qed.
End HostLemmas.

Lemma ceil_div_one v : ceil_div v 1 = v.
Proof. apply ceil_div_unique; lia. Qed.

Lemma grid_fits_ceil c h w :
  0 < c <= INT32_MAX -> 0 < h <= INT32_MAX -> 0 < w <= INT32_MAX ->
  grid_fits c h w (Dim3 (ceil_div w 16) (ceil_div h 16) (ceil_div c 1)) (Dim3 16 16 1).
Proof.
  unfold INT32_MAX. intros Hc Hh Hw.
  pose proof (ceil_div_bounds w 16 ltac:(lia)). pose proof (ceil_div_bounds h 16 ltac:(lia)).
  rewrite ceil_div_one. split; simpl; lia.
Qed.

(** The launch grid of [computeCostVolume] and of [addDBiasTo3DConv] for a
    tensor whose three trailing extents are [c], [h], [w]. *)
Definition grid_of (c h w : Z) : dim3 := Dim3 (ceil_div w 16) (ceil_div h 16) (ceil_div c 1).

Definition cost_volume_launches (C H W : Z) : list (kernel_id * dim3 * dim3) :=
  [(KcostVolumeCopy, grid_of C H W, Dim3 16 16 1);
   (KcostVolumeCopyPad, grid_of C H W, Dim3 16 16 1)].

Section CostVolumeHost.
Variables (NDEBUG : bool) (rt : Runtime).
Context {T : Type} {ET : Elem T}.
Variables (left right : list T) (in_dims out_dims : Dims) (C H W D : Z).
Hypothesis (Hrank : NDEBUG = true \/ (nbDims in_dims = 3 /\ nbDims out_dims = 4)).
Hypothesis (EC : d in_dims 0 = C) (EH : d in_dims 1 = H) (EW : d in_dims 2 = W).
Hypothesis (ED : d out_dims 0 = D).
Hypothesis (HC : 0 < C) (HH : 0 < H) (HW : 0 < W) (HD : 0 <= D <= INT32_MAX).
Hypothesis (Hvol : 2 * (C * H * W) <= INT32_MAX).
Hypothesis (Hleft : C * H * W <= Z.of_nat (length left)).
Hypothesis (Hright : C * H * W <= Z.of_nat (length right)).
Hypothesis (Hrt : launch_check rt (grid_of C H W) (Dim3 16 16 1) = cudaSuccess).

Local Abbreviation CHW := (C * H * W).

End CostVolumeHost.

(** ** The cost volume *)

(** Row-major positions in a feature map [[C,H,W]] and in the two halves of
    slice [dd] of the cost volume [[D,2C,H,W]]. *)
Definition feat_index (H W c y x : Z) : Z := c * H * W + y * W + x.










(** ** The bias launch *)

Section BiasLaunch.
Context {T : Type} {ET : Elem T}.
Variables (N D H W : Z) (g b : dim3).
Hypothesis (HN : 0 < N) (HD : 0 < D) (HH : 0 < H) (HW : 0 < W).
Hypothesis (Hvol : N * D * H * W <= INT32_MAX).
Hypothesis (Hfit : grid_fits (N * D) H W g b).

Definition own_bias (t : dim3 * dim3) (j : Z) : bool :=
  active (N * D) H W b t && (j =? lin H W b t).

Definition val_bias (bias : list T) (j : Z) (old : option T) : option T :=
  v ← old; bv ← rd bias (j / (H * W) mod D); Some (add v bv).

Lemma bias_thread_acts (bias : list T) n t :
  D <= Z.of_nat (length bias) ->
  t ∈ threads g b -> N * D * H * W <= Z.of_nat n ->
  thread_acts (fun bi ti => addDBiasTo3DConvKernel bias N D H W bi b ti) n own_bias
              (val_bias bias) t.
Proof.
  intros Hbias Ht Hn m Hm. unfold addDBiasTo3DConvKernel, own_bias.
  destruct (gid_u32 (N * D) H W g b Hfit t Ht) as (-> & -> & ->).
  assert (0 < N * D) by nia.
  destruct (extents_le_volume (N * D) H W ltac:(lia) HH HW) as (?&?&?).
  assert (D <= N * D) by nia. unfold INT32_MAX in *.
  rewrite (u32_small W), (u32_small H), (u32_small D) by lia.
  replace (D * N) with (N * D) by lia.
  rewrite (i32_small (N * D)), (u32_small (N * D)) by lia.
  rewrite guard_active.
  destruct (active (N * D) H W b t) eqn:Ha; simpl.
  2:{ exists m. auto. }
  destruct (active_lin (N * D) H W g b t Ht Ha) as [(Hx & Hy & Hz) Hl].
  fold (lin H W b t).
  rewrite (u32_small (lin H W b t)) by lia.
  pose proof (Z.mod_pos_bound (gid_z b t) D HD).
  rewrite i32_small by lia.
  destruct (rd_in_range bias (gid_z b t mod D) ltac:(lia)) as [bv Hbv].
  destruct (rd_in_range m (lin H W b t) ltac:(lia)) as [v Hv].
  rewrite Hbv, Hv. simpl. rewrite wr_in_range by lia.
  eexists. split; [done|]. split; [by rewrite length_insert|].
  intros j.
  destruct (wr_Some m (lin H W b t) (add v bv) _
              (wr_in_range m (lin H W b t) (add v bv) ltac:(lia))) as (_ & _ & R).
  rewrite R. destruct (Z.eqb_spec j (lin H W b t)) as [->|]; [|done].
  unfold val_bias. rewrite Hv. simpl.
  unfold lin at 1. rewrite index_plane by lia. by rewrite Hbv.
Qed.

Lemma own_bias_unique j t1 t2 :
  t1 ∈ threads g b -> t2 ∈ threads g b ->
  own_bias t1 j = true -> own_bias t2 j = true -> t1 = t2.
Proof.
  unfold own_bias. intros H1 H2 [A1 O1]%andb_prop [A2 O2]%andb_prop.
  apply Z.eqb_eq in O1, O2.
  apply (active_lin_inj (N * D) H W g b); try done. lia.
Qed.

Lemma own_bias_region j :
  existsb (fun t => own_bias t j) (threads g b) = (0 <=? j) && (j <? N * D * H * W).
Proof.
  unfold own_bias.
  apply (existsb_owner (N * D) H W g b HH HW Hfit (fun i j => j =? i) (fun j => j)
           (fun j => 0 <=? j)).
  - intros i Hi. rewrite Z.eqb_eq, Z.leb_le. lia.
  - by rewrite Z.leb_le.
Qed.

(** What the bias launch leaves in the convolution buffer. *)
Lemma bias_grid_spec (bias conv : list T) :
  D <= Z.of_nat (length bias) ->
  N * D * H * W <= Z.of_nat (length conv) ->
  exists conv', run_grid (addDBiasTo3DConvKernel bias N D H W) g b conv = Some conv' /\
    length conv' = length conv /\
    forall j, rd conv' j =
              if (0 <=? j) && (j <? N * D * H * W) then val_bias bias j (rd conv j)
              else rd conv j.
Proof.
  intros Hbias Hconv. unfold run_grid.
  destruct (run_threads_pointwise
              (fun bi ti => addDBiasTo3DConvKernel bias N D H W bi b ti)
              (length conv) own_bias (val_bias bias) (threads g b) (NoDup_threads g b))
    with (m := conv) as (conv' & E & L & P).
  - intros t Ht. by apply bias_thread_acts.
  - intros j t1 t2. apply own_bias_unique.
  - done.
  - exists conv'. split; [done|]. split; [done|]. intros j.
    by rewrite P, own_bias_region.
Qed.
(** Any schedule of the threads of the bias launch gives the same buffer. *)
Lemma bias_grid_order (bias conv : list T) ts :
  D <= Z.of_nat (length bias) ->
  N * D * H * W <= Z.of_nat (length conv) ->
  threads g b ≡ₚ ts ->
  run_threads (fun bi ti => addDBiasTo3DConvKernel bias N D H W bi b ti) ts conv
  = run_grid (addDBiasTo3DConvKernel bias N D H W) g b conv.
Proof.
  intros Hbias Hconv Hp. unfold run_grid.
  apply (run_threads_order _ (length conv) own_bias (val_bias bias) (threads g b) ts);
    [done | apply NoDup_threads | | | done].
  - intros t Ht. by apply bias_thread_acts.
  - intros j t1 t2. apply own_bias_unique.
Qed.
End BiasLaunch.

(** ** Bias addition *)

(** The preconditions of an [addDBiasTo3DConv] call on a tensor [[N,D,H,W]]:
    what the assertions ask for (in a debug build), extents whose product
    fits the 32-bit arithmetic of the kernel, buffers as large as the shapes
    say, and a launch configuration the runtime accepts. *)
Record bias_pre (NDEBUG : bool) (rt : Runtime) {T : Type}
    (bias : list T) (bias_dims conv_dims : Dims) (conv : list T) : Prop := {
  bp_asserts :
    NDEBUG = true \/
    (nbDims bias_dims = 5 /\ nbDims conv_dims = 4 /\
     d bias_dims 0 = 1 /\ d bias_dims 2 = d conv_dims 1 /\
     ceil_div (d conv_dims 2) 16 <= kMaxGridSizeY /\
     d conv_dims 0 * d conv_dims 1 <= kMaxGridSizeZ);
  bp_N : 0 < d conv_dims 0;
  bp_D : 0 < d conv_dims 1;
  bp_H : 0 < d conv_dims 2;
  bp_W : 0 < d conv_dims 3;
  bp_volume : d conv_dims 0 * d conv_dims 1 * d conv_dims 2 * d conv_dims 3 <= INT32_MAX;
  bp_bias : d conv_dims 1 <= Z.of_nat (length bias);
  bp_conv : d conv_dims 0 * d conv_dims 1 * d conv_dims 2 * d conv_dims 3
            <= Z.of_nat (length conv);
  bp_launch : launch_check rt
                (grid_of (d conv_dims 0 * d conv_dims 1) (d conv_dims 2) (d conv_dims 3))
                (Dim3 16 16 1) = cudaSuccess
}.

Lemma addDBiasTo3DConv_spec (NDEBUG : bool) (rt : Runtime) {T : Type} {ET : Elem T}
    (bias : list T) (bias_dims conv_dims : Dims) (conv : list T) log :
  bias_pre NDEBUG rt bias bias_dims conv_dims conv ->
  let N := d conv_dims 0 in let D := d conv_dims 1 in
  let H := d conv_dims 2 in let W := d conv_dims 3 in
  exists conv',
    addDBiasTo3DConv NDEBUG rt bias bias_dims conv_dims (mkDevice (Some conv) cudaSuccess log)
    = Ret (cudaSuccess,
           mkDevice (Some conv') cudaSuccess
             (log ++ [(KaddDBiasTo3DConv, grid_of (N * D) H W, Dim3 16 16 1)])) /\
    length conv' = length conv /\
    forall j, rd conv' j =
              if (0 <=? j) && (j <? N * D * H * W) then val_bias D H W bias j (rd conv j)
              else rd conv j.
Proof.
  intros [Hassert HN HD HH HW Hvol Hbias Hconv Hrt]. cbv zeta.
  set (N := d conv_dims 0) in *. set (D := d conv_dims 1) in *.
  set (H := d conv_dims 2) in *. set (W := d conv_dims 3) in *.
  assert (0 < N * D) by nia.
  destruct (extents_le_volume (N * D) H W ltac:(lia) HH HW) as (?&?&?).
  pose proof (grid_fits_ceil (N * D) H W ltac:(lia) ltac:(lia) ltac:(lia)) as Hfit.
  fold (grid_of (N * D) H W) in Hfit.
  destruct (bias_grid_spec N D H W (grid_of (N * D) H W) (Dim3 16 16 1)
              HN HD HH HW Hvol Hfit bias conv Hbias Hconv) as (conv' & E & L & P).
  exists conv'. split; [|done].
  unfold addDBiasTo3DConv. fold N D H W.
  rewrite !assert_pass by (destruct Hassert as [?|(E1&E2&E3&E4&_)];
                           [by left | right; by rewrite ?E1, ?E2, ?E3, ?E4, ?Z.eqb_refl]).
  simpl. unfold INT32_MAX in *.
  rewrite (i32_small (N * D)) by lia.
  rewrite !getBlockCount_extent by (unfold INT32_MAX; lia). simpl.
  rewrite !assert_pass
    by (destruct Hassert as [?|(_&_&_&_&E5&E6)];
        [by left | right; apply Z.leb_le; rewrite ?ceil_div_one; done]).
  simpl. fold (grid_of (N * D) H W).
  rewrite launch_accepted by done. simpl. rewrite E. simpl.
  by rewrite CHECKK_pass.
Qed.

(** X19: on a tensor [[N,D,H,W]] of at most [INT32_MAX] elements (the
    bound [bp_volume] of [bias_pre], under which the 32-bit element index of
    the kernel does not wrap), a successful [addDBiasTo3DConv] has
    incremented every element [conv[k,y,x]] with [k = n*D + dd] by
    [bias[k mod D]], once, and has left the elements outside the tensor
    unchanged. *)
Theorem addDBiasTo3DConv_adds_bias (NDEBUG : bool) (rt : Runtime) {T : Type} {ET : Elem T}
    (bias : list T) (bias_dims conv_dims : Dims) (conv : list T) log :
  bias_pre NDEBUG rt bias bias_dims conv_dims conv ->
  let N := d conv_dims 0 in let D := d conv_dims 1 in
  let H := d conv_dims 2 in let W := d conv_dims 3 in
  exists conv',
    addDBiasTo3DConv NDEBUG rt bias bias_dims conv_dims (mkDevice (Some conv) cudaSuccess log)
    = Ret (cudaSuccess,
           mkDevice (Some conv') cudaSuccess
             (log ++ [(KaddDBiasTo3DConv, grid_of (N * D) H W, Dim3 16 16 1)])) /\
    length conv' = length conv /\
    (forall n dd y x,
       0 <= n < N -> 0 <= dd < D -> 0 <= y < H -> 0 <= x < W ->
       let k := n * D + dd in
       exists v bv,
         rd conv (feat_index H W k y x) = Some v /\
         rd bias (k mod D) = Some bv /\
         rd conv' (feat_index H W k y x) = Some (add v bv)) /\
    (forall j,
       ~ (exists k y x, 0 <= k < N * D /\ 0 <= y < H /\ 0 <= x < W /\
                        j = feat_index H W k y x) ->
       rd conv' j = rd conv j).
Proof.
  intros Hpre.
  destruct (addDBiasTo3DConv_spec NDEBUG rt bias bias_dims conv_dims conv log Hpre)
    as (conv' & E & L & P).
  destruct Hpre as [_ HN HD HH HW Hvol Hbias Hconv _]. cbv zeta in *.
  set (N := d conv_dims 0) in *. set (D := d conv_dims 1) in *.
  set (H := d conv_dims 2) in *. set (W := d conv_dims 3) in *.
  exists conv'. split; [done|]. split; [done|]. split.
  - intros n dd y x Hn Hd Hy Hx. set (k := n * D + dd).
    assert (Hk : 0 <= k < N * D) by (unfold k; nia).
    pose proof (index_bound (N * D) H W x y k Hx Hy Hk) as Hi.
    assert (Hmod : k mod D = dd).
    { unfold k. rewrite Z.add_comm, Z.mod_add by lia. apply Z.mod_small. lia. }
    destruct (rd_in_range conv (feat_index H W k y x) ltac:(unfold feat_index; lia)) as [v Hv].
    destruct (rd_in_range bias (k mod D) ltac:(lia)) as [bv Hbv].
    exists v, bv. split; [done|]. split; [done|].
    rewrite P. unfold feat_index in *.
    destruct (Z.leb_spec 0 (k * H * W + y * W + x)); [|lia].
    destruct (Z.ltb_spec (k * H * W + y * W + x) (N * D * H * W)); [|lia]. simpl.
    unfold val_bias. rewrite Hv. simpl. rewrite index_plane by lia. by rewrite Hbv.
  - intros j Hj. rewrite P.
    destruct (Z.leb_spec 0 j); [|done].
    destruct (Z.ltb_spec j (N * D * H * W)); [|done].
    exfalso. apply Hj.
    destruct (index_decode (N * D) H W j HH HW ltac:(lia)) as (ix & iy & iz & ?&?&?&?).
    exists iz, iy, ix. unfold feat_index. done.
Qed.

(** C10: [addDBiasTo3DConv] looks at the rank, the batch extent [d[0]]
    and the depth extent [d[2]] of the bias descriptor only; two descriptors
    that agree on them give the same status and the same device state. *)
Theorem addDBiasTo3DConv_bias_dims_irrelevant (NDEBUG : bool) (rt : Runtime)
    {T : Type} {ET : Elem T} (bias : list T) (bias_dims1 bias_dims2 conv_dims : Dims)
    (dev : Device T) :
  nbDims bias_dims1 = nbDims bias_dims2 ->
  d bias_dims1 0 = d bias_dims2 0 ->
  d bias_dims1 2 = d bias_dims2 2 ->
  addDBiasTo3DConv NDEBUG rt bias bias_dims1 conv_dims dev
  = addDBiasTo3DConv NDEBUG rt bias bias_dims2 conv_dims dev.
Proof.
  intros E0 E1 E2. unfold addDBiasTo3DConv. by rewrite E0, E1, E2.
Qed.

(** ** Error propagation *)

Section ErrorPropagation.
Variables (NDEBUG : bool) (rt : Runtime).

(** What an operation returns when [CHECKK] finds an error on [dev]. *)
Definition stopped {T} (dev : Device T) : host (cudaError_t * Device T) :=
  Ret (last_error dev, mkDevice (dmem dev) cudaSuccess (launched dev)).

Lemma CHECKK_stops {T} (dev : Device T) k :
  last_error dev <> cudaSuccess -> CHECKK NDEBUG rt dev k = stopped dev.
Proof. apply CHECKK_error. Qed.

Lemma CHECKK_continue {T} (dev : Device T) k :
  last_error dev = cudaSuccess -> NDEBUG = true \/ is_Some (dmem dev) ->
  CHECKK NDEBUG rt dev k = k (mkDevice (dmem dev) cudaSuccess (launched dev)).
Proof.
  intros E Hs. unfold CHECKK, cudaGetLastError, cudaStreamSynchronize. rewrite E. simpl.
  destruct Hs as [-> | [m ->]]; [done|]. by destruct NDEBUG.
Qed.

Lemma launched_launch {T} id (k : kernel T) g b dev :
  launched (launch rt id k g b dev) = launched dev ++ [(id, g, b)].
Proof. unfold launch. by destruct (launch_check rt g b =? cudaSuccess). Qed.

Lemma launch_refused_state {T} id (k : kernel T) g b dev :
  launch_check rt g b <> cudaSuccess ->
  last_error (launch rt id k g b dev) = launch_check rt g b /\
  dmem (launch rt id k g b dev) = dmem dev.
Proof. intros E. by rewrite launch_refused. Qed.
End ErrorPropagation.

Section LaunchErrors.
Variables (NDEBUG : bool) (rt : Runtime).

Section FloatOps.
Context {T : Type} {ET : Elem T}.

Lemma computeCostVolume_first_error (left right : list T) in_dims out_dims dev gx gy gz :
  NDEBUG = true \/ (nbDims in_dims = 3 /\ nbDims out_dims = 4) ->
  getBlockCount NDEBUG (u32 (d in_dims 2)) 16 = Ret gx ->
  getBlockCount NDEBUG (u32 (d in_dims 1)) 16 = Ret gy ->
  getBlockCount NDEBUG (u32 (d in_dims 0)) 1 = Ret gz ->
  let g := Dim3 gx gy gz in
  let b := Dim3 16 16 1 in
  let copy := costVolumeCopyKernel left (d in_dims 0) (d in_dims 1) (d in_dims 2)
                (d out_dims 0) in
  let pad := costVolumeCopyPadKernel right (d in_dims 0) (d in_dims 1) (d in_dims 2)
               (d out_dims 0) in
  let dev1 := launch rt KcostVolumeCopy copy g b dev in
  let dev2 := launch rt KcostVolumeCopyPad pad g b
                (mkDevice (dmem dev1) cudaSuccess (launched dev1)) in
  (last_error dev1 <> cudaSuccess ->
   computeCostVolume NDEBUG rt left right in_dims out_dims dev
   = Ret (last_error dev1,
          mkDevice (dmem dev1) cudaSuccess (launched dev ++ [(KcostVolumeCopy, g, b)]))) /\
  (last_error dev1 = cudaSuccess -> NDEBUG = true \/ is_Some (dmem dev1) ->
   last_error dev2 <> cudaSuccess ->
   computeCostVolume NDEBUG rt left right in_dims out_dims dev
   = Ret (last_error dev2,
          mkDevice (dmem dev2) cudaSuccess
            (launched dev ++ [(KcostVolumeCopy, g, b); (KcostVolumeCopyPad, g, b)]))).
Proof.
  intros Hrank Ex Ey Ez g b copy pad dev1 dev2.
  assert (Hunf : computeCostVolume NDEBUG rt left right in_dims out_dims dev
                 = CHECKK NDEBUG rt dev1 (fun dev =>
                     CHECKK NDEBUG rt (launch rt KcostVolumeCopyPad pad g b dev)
                       (fun dev => Ret (cudaSuccess, dev)))).
  { unfold computeCostVolume.
    rewrite !assert_pass
      by (destruct Hrank as [?|[E3 E4]]; [by left | right; by rewrite ?E3, ?E4]).
    simpl. rewrite Ex. simpl. rewrite Ey. simpl. rewrite Ez. done. }
  split.
  - intros Herr. rewrite Hunf, CHECKK_stops by done. unfold stopped, dev1.
    by rewrite launched_launch.
  - intros Hok Hmem Herr. rewrite Hunf, CHECKK_continue by done.
    fold dev2. rewrite CHECKK_stops by done. unfold stopped, dev2, dev1.
    repeat (rewrite launched_launch; simpl). by rewrite <- app_assoc.
Qed.

Lemma addDBiasTo3DConv_launch_error (bias : list T) bias_dims conv_dims dev gx gy gz :
  NDEBUG = true \/
  (nbDims bias_dims = 5 /\ nbDims conv_dims = 4 /\ d bias_dims 0 = 1 /\
   d bias_dims 2 = d conv_dims 1 /\ gy <= kMaxGridSizeY /\ gz <= kMaxGridSizeZ) ->
  getBlockCount NDEBUG (u32 (d conv_dims 3)) 16 = Ret gx ->
  getBlockCount NDEBUG (u32 (d conv_dims 2)) 16 = Ret gy ->
  getBlockCount NDEBUG (u32 (i32 (d conv_dims 0 * d conv_dims 1))) 1 = Ret gz ->
  let g := Dim3 gx gy gz in
  let b := Dim3 16 16 1 in
  let dev1 := launch rt KaddDBiasTo3DConv
                (addDBiasTo3DConvKernel bias (d conv_dims 0) (d conv_dims 1)
                   (d conv_dims 2) (d conv_dims 3)) g b dev in
  last_error dev1 <> cudaSuccess ->
  addDBiasTo3DConv NDEBUG rt bias bias_dims conv_dims dev
  = Ret (last_error dev1,
         mkDevice (dmem dev1) cudaSuccess (launched dev ++ [(KaddDBiasTo3DConv, g, b)])).
Proof.
  intros Hassert Ex Ey Ez g b dev1 Herr.
  unfold addDBiasTo3DConv.
  rewrite !assert_pass by (destruct Hassert as [?|(E1&E2&E3&E4&_)];
                           [by left | right; by rewrite ?E1, ?E2, ?E3, ?E4, ?Z.eqb_refl]).
  simpl. rewrite Ex. simpl. rewrite Ey. simpl. rewrite Ez. simpl.
  rewrite !assert_pass
    by (destruct Hassert as [?|(_&_&_&_&E5&E6)]; [by left | right; by apply Z.leb_le]).
  simpl. fold g b dev1. rewrite CHECKK_stops by done. unfold stopped, dev1.
  by rewrite launched_launch.
Qed.
End FloatOps.

Section Conversions.
Context {F32 U16 : Type} {HC : HalfConv F32 U16}.

Lemma fp32Tofp16_launch_error (src : list F32) size (dev : Device U16) gx :
  getBlockCount NDEBUG (u32 size) 256 = Ret gx ->
  let g := Dim3 gx 1 1 in
  let b := Dim3 256 1 1 in
  let dev1 := launch rt Kfp32Tofp16 (fp32Tofp16Kernel src size) g b dev in
  last_error dev1 <> cudaSuccess ->
  fp32Tofp16 NDEBUG rt src size dev
  = Ret (last_error dev1,
         mkDevice (dmem dev1) cudaSuccess (launched dev ++ [(Kfp32Tofp16, g, b)])).
Proof.
  intros Ex g b dev1 Herr.
  unfold fp32Tofp16. simpl. rewrite Ex. simpl. fold g b dev1.
  rewrite CHECKK_stops by done. unfold stopped, dev1. by rewrite launched_launch.
Qed.

Lemma fp16Tofp32_launch_error (src : list U16) size (dev : Device F32) gx :
  getBlockCount NDEBUG (u32 size) 256 = Ret gx ->
  let g := Dim3 gx 1 1 in
  let b := Dim3 256 1 1 in
  let dev1 := launch rt Kfp16Tofp32 (fp16Tofp32Kernel src size) g b dev in
  last_error dev1 <> cudaSuccess ->
  fp16Tofp32 NDEBUG rt src size dev
  = Ret (last_error dev1,
         mkDevice (dmem dev1) cudaSuccess (launched dev ++ [(Kfp16Tofp32, g, b)])).
Proof.
  intros Ex g b dev1 Herr.
  unfold fp16Tofp32. simpl. rewrite Ex. simpl. fold g b dev1.
  rewrite CHECKK_stops by done. unfold stopped, dev1. by rewrite launched_launch.
Qed.
End Conversions.
End LaunchErrors.

(** C5: [CHECKK] returns a pending error whatever the rest of the
    operation is; hence an error found after the first launch of
    [computeCostVolume] is returned with the left-copy launch as the only
    launch issued, an error found after the second launch is returned as
    well, and the single-launch operations return the error found after
    their launch. *)
Theorem launch_error_stops_operation (NDEBUG : bool) (rt : Runtime) :
  (forall T (dev : Device T) k,
     last_error dev <> cudaSuccess ->
     CHECKK NDEBUG rt dev k
     = Ret (last_error dev, mkDevice (dmem dev) cudaSuccess (launched dev))) /\
  (forall T (ET : Elem T) (left right : list T) in_dims out_dims dev gx gy gz,
     NDEBUG = true \/ (nbDims in_dims = 3 /\ nbDims out_dims = 4) ->
     getBlockCount NDEBUG (u32 (d in_dims 2)) 16 = Ret gx ->
     getBlockCount NDEBUG (u32 (d in_dims 1)) 16 = Ret gy ->
     getBlockCount NDEBUG (u32 (d in_dims 0)) 1 = Ret gz ->
     let g := Dim3 gx gy gz in
     let b := Dim3 16 16 1 in
     let copy := costVolumeCopyKernel left (d in_dims 0) (d in_dims 1) (d in_dims 2)
                   (d out_dims 0) in
     let pad := costVolumeCopyPadKernel right (d in_dims 0) (d in_dims 1) (d in_dims 2)
                  (d out_dims 0) in
     let dev1 := launch rt KcostVolumeCopy copy g b dev in
     let dev2 := launch rt KcostVolumeCopyPad pad g b
                   (mkDevice (dmem dev1) cudaSuccess (launched dev1)) in
     (last_error dev1 <> cudaSuccess ->
      computeCostVolume NDEBUG rt left right in_dims out_dims dev
      = Ret (last_error dev1,
             mkDevice (dmem dev1) cudaSuccess (launched dev ++ [(KcostVolumeCopy, g, b)]))) /\
     (last_error dev1 = cudaSuccess -> NDEBUG = true \/ is_Some (dmem dev1) ->
      last_error dev2 <> cudaSuccess ->
      computeCostVolume NDEBUG rt left right in_dims out_dims dev
      = Ret (last_error dev2,
             mkDevice (dmem dev2) cudaSuccess
               (launched dev ++ [(KcostVolumeCopy, g, b); (KcostVolumeCopyPad, g, b)])))) /\
  (forall T (ET : Elem T) (bias : list T) bias_dims conv_dims dev gx gy gz,
     NDEBUG = true \/
     (nbDims bias_dims = 5 /\ nbDims conv_dims = 4 /\ d bias_dims 0 = 1 /\
      d bias_dims 2 = d conv_dims 1 /\ gy <= kMaxGridSizeY /\ gz <= kMaxGridSizeZ) ->
     getBlockCount NDEBUG (u32 (d conv_dims 3)) 16 = Ret gx ->
     getBlockCount NDEBUG (u32 (d conv_dims 2)) 16 = Ret gy ->
     getBlockCount NDEBUG (u32 (i32 (d conv_dims 0 * d conv_dims 1))) 1 = Ret gz ->
     let g := Dim3 gx gy gz in
     let b := Dim3 16 16 1 in
     let dev1 := launch rt KaddDBiasTo3DConv
                   (addDBiasTo3DConvKernel bias (d conv_dims 0) (d conv_dims 1)
                      (d conv_dims 2) (d conv_dims 3)) g b dev in
     last_error dev1 <> cudaSuccess ->
     addDBiasTo3DConv NDEBUG rt bias bias_dims conv_dims dev
     = Ret (last_error dev1,
            mkDevice (dmem dev1) cudaSuccess (launched dev ++ [(KaddDBiasTo3DConv, g, b)]))) /\
  (forall F32 U16 (HC : HalfConv F32 U16) (src : list F32) size (dev : Device U16) gx,
     getBlockCount NDEBUG (u32 size) 256 = Ret gx ->
     let g := Dim3 gx 1 1 in
     let b := Dim3 256 1 1 in
     let dev1 := launch rt Kfp32Tofp16 (fp32Tofp16Kernel src size) g b dev in
     last_error dev1 <> cudaSuccess ->
     fp32Tofp16 NDEBUG rt src size dev
     = Ret (last_error dev1,
            mkDevice (dmem dev1) cudaSuccess (launched dev ++ [(Kfp32Tofp16, g, b)]))) /\
  (forall F32 U16 (HC : HalfConv F32 U16) (src : list U16) size (dev : Device F32) gx,
     getBlockCount NDEBUG (u32 size) 256 = Ret gx ->
     let g := Dim3 gx 1 1 in
     let b := Dim3 256 1 1 in
     let dev1 := launch rt Kfp16Tofp32 (fp16Tofp32Kernel src size) g b dev in
     last_error dev1 <> cudaSuccess ->
     fp16Tofp32 NDEBUG rt src size dev
     = Ret (last_error dev1,
            mkDevice (dmem dev1) cudaSuccess (launched dev ++ [(Kfp16Tofp32, g, b)]))).
Proof.
  split; [intros; by apply CHECKK_error|].
  split; [intros; by apply computeCostVolume_first_error|].
  split; [intros; by apply addDBiasTo3DConv_launch_error|].
  split; intros.
  - by apply fp32Tofp16_launch_error.
  - by apply fp16Tofp32_launch_error.
Qed.

(** ** Grids beyond the device limit *)

(** A runtime that refuses every launch whose grid exceeds the limit of
    65535 blocks along y or z. *)
Definition refuses_oversized_grids (rt : Runtime) : Prop :=
  forall g b, kMaxGridSizeY < dim_y g \/ kMaxGridSizeZ < dim_z g ->
              launch_check rt g b <> cudaSuccess.

Lemma device_runtime_refuses : refuses_oversized_grids device_runtime.
Proof.
  intros g b Hg. simpl. unfold device_launch_check, kMaxGridSizeY, kMaxGridSizeZ in *.
  destruct (Z.leb_spec (dim_y g) 65535), (Z.leb_spec (dim_z g) 65535); try lia;
    rewrite ?andb_false_r; simpl; done.
Qed.

(** C6, with the two builds told apart: when the computed grid exceeds 65535 along y or z and
    the runtime refuses such a launch, no thread runs and the destination
    buffer is left as it was; [computeCostVolume], and [addDBiasTo3DConv]
    in a release build, return the status of the refused launch, whereas in
    a debug build [addDBiasTo3DConv] is stopped by its assertion on the grid
    before the launch. *)
Theorem oversized_grid_outcome (NDEBUG : bool) (rt : Runtime) :
  refuses_oversized_grids rt ->
  (forall T (ET : Elem T) (left right : list T) in_dims out_dims dev gx gy gz,
     NDEBUG = true \/ (nbDims in_dims = 3 /\ nbDims out_dims = 4) ->
     getBlockCount NDEBUG (u32 (d in_dims 2)) 16 = Ret gx ->
     getBlockCount NDEBUG (u32 (d in_dims 1)) 16 = Ret gy ->
     getBlockCount NDEBUG (u32 (d in_dims 0)) 1 = Ret gz ->
     kMaxGridSizeY < gy \/ kMaxGridSizeZ < gz ->
     let g := Dim3 gx gy gz in
     let b := Dim3 16 16 1 in
     launch_check rt g b <> cudaSuccess /\
     computeCostVolume NDEBUG rt left right in_dims out_dims dev
     = Ret (launch_check rt g b,
            mkDevice (dmem dev) cudaSuccess (launched dev ++ [(KcostVolumeCopy, g, b)]))) /\
  (forall T (ET : Elem T) (bias : list T) bias_dims conv_dims dev gx gy gz,
     getBlockCount NDEBUG (u32 (d conv_dims 3)) 16 = Ret gx ->
     getBlockCount NDEBUG (u32 (d conv_dims 2)) 16 = Ret gy ->
     getBlockCount NDEBUG (u32 (i32 (d conv_dims 0 * d conv_dims 1))) 1 = Ret gz ->
     kMaxGridSizeY < gy \/ kMaxGridSizeZ < gz ->
     let g := Dim3 gx gy gz in
     let b := Dim3 16 16 1 in
     (NDEBUG = true ->
      launch_check rt g b <> cudaSuccess /\
      addDBiasTo3DConv NDEBUG rt bias bias_dims conv_dims dev
      = Ret (launch_check rt g b,
             mkDevice (dmem dev) cudaSuccess (launched dev ++ [(KaddDBiasTo3DConv, g, b)]))) /\
     (NDEBUG = false ->
      addDBiasTo3DConv NDEBUG rt bias bias_dims conv_dims dev = Abort)).
Proof.
  intros Hrt. split.
  - intros T ET left right in_dims out_dims dev gx gy gz Hrank Ex Ey Ez Hbig g b.
    assert (Hno : launch_check rt g b <> cudaSuccess) by (apply Hrt; exact Hbig).
    split; [done|].
    destruct (computeCostVolume_first_error NDEBUG rt left right in_dims out_dims dev
                gx gy gz Hrank Ex Ey Ez) as [H1 _].
    fold g b in H1.
    destruct (launch_refused_state rt KcostVolumeCopy
                (costVolumeCopyKernel left (d in_dims 0) (d in_dims 1) (d in_dims 2)
                   (d out_dims 0)) g b dev Hno) as [Ee Em].
    rewrite Ee, Em in H1. apply H1. done.
  - intros T ET bias bias_dims conv_dims dev gx gy gz Ex Ey Ez Hbig g b.
    assert (Hno : launch_check rt g b <> cudaSuccess) by (apply Hrt; exact Hbig).
    split.
    + intros ->. split; [done|].
      pose proof (addDBiasTo3DConv_launch_error true rt bias bias_dims conv_dims dev
                    gx gy gz ltac:(by left) Ex Ey Ez) as H1.
      cbv zeta in H1. fold g b in H1.
      destruct (launch_refused_state rt KaddDBiasTo3DConv
                  (addDBiasTo3DConvKernel bias (d conv_dims 0) (d conv_dims 1)
                     (d conv_dims 2) (d conv_dims 3)) g b dev Hno) as [Ee Em].
      rewrite Ee, Em in H1. apply H1. done.
    + intros ->. unfold addDBiasTo3DConv, assert.
      destruct (nbDims bias_dims =? 5); [|done].
      destruct (nbDims conv_dims =? 4); [|done].
      destruct (d bias_dims 0 =? 1); [|done].
      destruct (d bias_dims 2 =? d conv_dims 1); [|done].
      simpl. rewrite Ex. simpl. rewrite Ey. simpl. rewrite Ez. simpl.
      unfold kMaxGridSizeY, kMaxGridSizeZ in *.
      destruct (Z.leb_spec gy 65535); [|done].
      destruct (Z.leb_spec gz 65535); [lia|done].
Qed.

(** ** The launch grid of the precision conversions *)

Lemma getBlockCount_Ret NDEBUG total bs res :
  getBlockCount NDEBUG total bs = Ret res ->
  bs <> 0 /\ res = u32 (total + bs - 1) / bs.
Proof.
  unfold getBlockCount, assert. destruct (Z.eqb_spec bs 0); [done|].
  destruct NDEBUG; simpl.
  - by intros [= <-].
  - destruct (0 <? u32 (total + bs - 1) / bs); simpl; [|done].
    destruct (total <=? u64 (u32 (total + bs - 1) / bs * bs)); simpl; [|done].
    by intros [= <-].
Qed.

Lemma run_threads_frame {T} (k : dim3 -> dim3 -> list T -> option (list T)) (P : Z -> Prop) ts :
  (forall t m m', t ∈ ts -> k t.1 t.2 m = Some m' -> forall j, P j -> rd m' j = rd m j) ->
  forall m m', run_threads k ts m = Some m' -> forall j, P j -> rd m' j = rd m j.
Proof.
  induction ts as [|t ts IH]; intros Hk m m' E j Hj.
  - by injection E as <-.
  - simpl in E. destruct (k t.1 t.2 m) as [m1|] eqn:E1; [|done]. simpl in E.
    rewrite (IH (fun t' m0 m0' Ht' => Hk t' m0 m0' (list_elem_of_further _ _ _ Ht')) m1 m' E j Hj).
    apply (Hk t m m1); [left|done|done].
Qed.

Lemma threads_1d gx t :
  t ∈ threads (Dim3 gx 1 1) (Dim3 256 1 1) ->
  0 <= gid_x (Dim3 256 1 1) t < gx * 256 /\
  gid_y (Dim3 256 1 1) t = 0 /\ gid_z (Dim3 256 1 1) t = 0.
Proof.
  destruct t as [bi ti]. rewrite elem_of_threads. unfold gid_x, gid_y, gid_z. simpl. lia.
Qed.

Lemma CHECKK_last {T} NDEBUG rt (dev : Device T) :
  exists st, CHECKK NDEBUG rt dev (fun dev => Ret (cudaSuccess, dev))
             = Ret (st, mkDevice (dmem dev) cudaSuccess (launched dev)).
Proof.
  unfold CHECKK, cudaGetLastError.
  destruct (last_error dev =? cudaSuccess); simpl; [|by eexists].
  destruct NDEBUG; [by eexists|].
  destruct (cudaStreamSynchronize rt _ =? cudaSuccess); simpl; by eexists.
Qed.

(** The thread that handles element [tid] in a launch of [gx] blocks of 256
    threads: it exists, and it is the only one. *)
Definition covered_once (gx tid : Z) : Prop :=
  exists t, t ∈ threads (Dim3 gx 1 1) (Dim3 256 1 1) /\
            u32 (dim_x t.1 * 256 + dim_x t.2) = tid /\
            forall t', t' ∈ threads (Dim3 gx 1 1) (Dim3 256 1 1) ->
                       u32 (dim_x t'.1 * 256 + dim_x t'.2) = tid -> t' = t.

Lemma covered_once_iff gx tid :
  0 <= gx * 256 <= 2 ^ 32 -> covered_once gx tid <-> 0 <= tid < gx * 256.
Proof.
  intros Hgx.
  assert (Hu : forall t, t ∈ threads (Dim3 gx 1 1) (Dim3 256 1 1) ->
                         u32 (dim_x t.1 * 256 + dim_x t.2) = gid_x (Dim3 256 1 1) t).
  { intros t Ht. destruct (threads_1d gx t Ht) as (Hx & _). unfold gid_x in *. simpl in *.
    apply u32_small. lia. }
  split.
  - intros (t & Ht & <- & _). rewrite (Hu t Ht). by apply threads_1d.
  - intros Htid.
    destruct (gid_surj (Dim3 gx 1 1) (Dim3 256 1 1) tid 0 0) as (t & Ht & Ex & Ey & Ez);
      simpl; try lia.
    exists t. split; [done|]. split; [by rewrite (Hu t Ht)|].
    intros t' Ht' E'. rewrite (Hu t' Ht') in E'.
    destruct (threads_1d gx t' Ht') as (_ & Ey' & Ez').
    apply (gid_inj (Dim3 gx 1 1) (Dim3 256 1 1)); try done; lia.
Qed.

Section ConversionFrame.
Context {F32 U16 : Type} {HC : HalfConv F32 U16}.

Lemma fp32Tofp16_grid_frame (src : list F32) size gx (dst dst' : list U16) :
  0 <= gx * 256 <= 2 ^ 32 ->
  run_grid (fp32Tofp16Kernel src size) (Dim3 gx 1 1) (Dim3 256 1 1) dst = Some dst' ->
  forall j, gx * 256 <= j -> rd dst' j = rd dst j.
Proof.
  intros Hgx. unfold run_grid. apply run_threads_frame.
  intros t m m' Ht E j Hj. unfold fp32Tofp16Kernel in E. simpl in E.
  destruct (threads_1d gx t Ht) as (Hx & _). unfold gid_x in Hx. simpl in Hx.
  rewrite u32_small in E by lia.
  destruct (size <=? _); [by injection E as <-|].
  destruct (rd src _); [|done]. simpl in E.
  apply wr_Some in E as (_ & _ & R). rewrite R.
  destruct (Z.eqb_spec j (dim_x t.1 * 256 + dim_x t.2)); [lia|done].
Qed.

Lemma fp16Tofp32_grid_frame (src : list U16) size gx (dst dst' : list F32) :
  0 <= gx * 256 <= 2 ^ 32 ->
  run_grid (fp16Tofp32Kernel src size) (Dim3 gx 1 1) (Dim3 256 1 1) dst = Some dst' ->
  forall j, gx * 256 <= j -> rd dst' j = rd dst j.
Proof.
  intros Hgx. unfold run_grid. apply run_threads_frame.
  intros t m m' Ht E j Hj. unfold fp16Tofp32Kernel in E. simpl in E.
  destruct (threads_1d gx t Ht) as (Hx & _). unfold gid_x in Hx. simpl in Hx.
  rewrite u32_small in E by lia.
  destruct (size <=? _); [by injection E as <-|].
  destruct (rd src _); [|done]. simpl in E.
  apply wr_Some in E as (_ & _ & R). rewrite R.
  destruct (Z.eqb_spec j (dim_x t.1 * 256 + dim_x t.2)); [lia|done].
Qed.
End ConversionFrame.

(** ** Elementwise conversion

    Both precision kernels store, at each index below [size], the
    conversion of the source element at that index. *)

Definition elementwise {A B : Type} (cvt : A -> B) (src : list A) (size : Z) : kernel B :=
  fun blockIdx blockDim threadIdx dst =>
    let tid := u32 (dim_x blockIdx * dim_x blockDim + dim_x threadIdx) in
    if size <=? tid then Some dst
    else v ← rd src tid; wr dst tid (cvt v).

Section Elementwise.
Context {A B : Type} (cvt : A -> B).
Variables (src : list A) (size gx : Z).
Hypothesis (Hsize : 0 < size) (Hcover : size <= gx * 256 <= 2 ^ 32).
Hypothesis (Hsrc : size <= Z.of_nat (length src)).

Local Abbreviation g := (Dim3 gx 1 1).
Local Abbreviation b := (Dim3 256 1 1).

Lemma grid_fits_1d : grid_fits 1 1 size g b.
Proof. split; simpl; lia. Qed.

Definition own_elem (t : dim3 * dim3) (j : Z) : bool :=
  active 1 1 size b t && (j =? lin 1 size b t).

Definition val_elem (j : Z) (_ : option B) : option B := cvt <$> rd src j.

Lemma elementwise_thread_acts n t :
  t ∈ threads g b -> size <= Z.of_nat n ->
  thread_acts (fun bi ti => elementwise cvt src size bi b ti) n own_elem val_elem t.
Proof.
  intros Ht Hn m Hm. unfold elementwise, own_elem.
  destruct (gid_u32 1 1 size g b grid_fits_1d t Ht) as (Ex & _ & _). simpl in Ex. simpl.
  rewrite Ex.
  destruct (threads_1d gx t Ht) as (Hx & Hy & Hz).
  assert (Hl : lin 1 size b t = gid_x b t) by (unfold lin; rewrite Hy, Hz; lia).
  assert (Ha : active 1 1 size b t = (gid_x b t <? size)).
  { unfold active. rewrite Hy, Hz. simpl. by rewrite !andb_true_r. }
  rewrite Ha, Hl.
  destruct (Z.leb_spec size (gid_x b t)), (Z.ltb_spec (gid_x b t) size); try lia; simpl.
  { exists m. auto. }
  destruct (rd_in_range src (gid_x b t) ltac:(lia)) as [v Hv]. rewrite Hv. simpl.
  rewrite wr_in_range by lia.
  eexists. split; [done|]. split; [by rewrite length_insert|].
  intros j.
  destruct (wr_Some m (gid_x b t) (cvt v) _
              (wr_in_range m (gid_x b t) (cvt v) ltac:(lia))) as (_ & _ & R).
  rewrite R. destruct (Z.eqb_spec j (gid_x b t)) as [->|]; [|done].
  unfold val_elem. by rewrite Hv.
Qed.

Lemma elementwise_grid_spec (dst : list B) :
  size <= Z.of_nat (length dst) ->
  exists dst', run_grid (elementwise cvt src size) g b dst = Some dst' /\
    length dst' = length dst /\
    forall j, rd dst' j = if (0 <=? j) && (j <? size) then cvt <$> rd src j else rd dst j.
Proof.
  intros Hdst. unfold run_grid.
  destruct (run_threads_pointwise
              (fun bi ti => elementwise cvt src size bi b ti)
              (length dst) own_elem val_elem (threads g b) (NoDup_threads g b))
    with (m := dst) as (dst' & E & L & P).
  - intros t Ht. by apply elementwise_thread_acts.
  - unfold own_elem. intros j t1 t2 H1 H2 [A1 O1]%andb_prop [A2 O2]%andb_prop.
    apply Z.eqb_eq in O1, O2.
    apply (active_lin_inj 1 1 size g b); try done. lia.
  - done.
  - exists dst'. split; [done|]. split; [done|]. intros j. rewrite P.
    unfold own_elem.
    rewrite (existsb_owner 1 1 size g b ltac:(lia) Hsize grid_fits_1d
               (fun i j => j =? i) (fun j => j) (fun j => 0 <=? j)).
    + by replace (1 * 1 * size) with size by lia.
    + intros i Hi. rewrite Z.eqb_eq, Z.leb_le. lia.
    + by rewrite Z.leb_le.
Qed.
End Elementwise.

Lemma fp32Tofp16_spec (NDEBUG : bool) (rt : Runtime) {F32 U16 : Type} {HC : HalfConv F32 U16}
    (src : list F32) (size : Z) (dst : list U16) log :
  0 < size -> size + 255 < 2 ^ 32 ->
  size <= Z.of_nat (length src) -> size <= Z.of_nat (length dst) ->
  launch_check rt (Dim3 (ceil_div size 256) 1 1) (Dim3 256 1 1) = cudaSuccess ->
  exists dst',
    fp32Tofp16 NDEBUG rt src size (mkDevice (Some dst) cudaSuccess log)
    = Ret (cudaSuccess,
           mkDevice (Some dst') cudaSuccess
             (log ++ [(Kfp32Tofp16, Dim3 (ceil_div size 256) 1 1, Dim3 256 1 1)])) /\
    length dst' = length dst /\
    forall j, rd dst' j =
              if (0 <=? j) && (j <? size) then float_to_half_bits <$> rd src j else rd dst j.
Proof.
  intros Hsize Hw Hsrc Hdst Hrt.
  pose proof (ceil_div_bounds size 256 ltac:(lia)) as Hc.
  destruct (elementwise_grid_spec float_to_half_bits src size (ceil_div size 256)
              Hsize ltac:(lia) Hsrc dst Hdst) as (dst' & E & L & P).
  exists dst'. split; [|done]. unfold fp32Tofp16. simpl.
  rewrite u32_small, getBlockCount_no_wrap by lia. simpl.
  rewrite launch_accepted by done. simpl.
  change (fp32Tofp16Kernel src size) with (elementwise float_to_half_bits src size).
  rewrite E. simpl. by rewrite CHECKK_pass.
Qed.

Lemma fp16Tofp32_spec (NDEBUG : bool) (rt : Runtime) {F32 U16 : Type} {HC : HalfConv F32 U16}
    (src : list U16) (size : Z) (dst : list F32) log :
  0 < size -> size + 255 < 2 ^ 32 ->
  size <= Z.of_nat (length src) -> size <= Z.of_nat (length dst) ->
  launch_check rt (Dim3 (ceil_div size 256) 1 1) (Dim3 256 1 1) = cudaSuccess ->
  exists dst',
    fp16Tofp32 NDEBUG rt src size (mkDevice (Some dst) cudaSuccess log)
    = Ret (cudaSuccess,
           mkDevice (Some dst') cudaSuccess
             (log ++ [(Kfp16Tofp32, Dim3 (ceil_div size 256) 1 1, Dim3 256 1 1)])) /\
    length dst' = length dst /\
    forall j, rd dst' j =
              if (0 <=? j) && (j <? size) then half_bits_to_float <$> rd src j else rd dst j.
Proof.
  intros Hsize Hw Hsrc Hdst Hrt.
  pose proof (ceil_div_bounds size 256 ltac:(lia)) as Hc.
  destruct (elementwise_grid_spec half_bits_to_float src size (ceil_div size 256)
              Hsize ltac:(lia) Hsrc dst Hdst) as (dst' & E & L & P).
  exists dst'. split; [|done]. unfold fp16Tofp32. simpl.
  rewrite u32_small, getBlockCount_no_wrap by lia. simpl.
  rewrite launch_accepted by done. simpl.
  change (fp16Tofp32Kernel src size) with (elementwise half_bits_to_float src size).
  rewrite E. simpl. by rewrite CHECKK_pass.
Qed.

(** C9, with the exact coverage bound: the conversions launch [gx] blocks of 256 threads
    where [gx] is computed from [size mod 2^32]; the elements below
    [gx * 256] have exactly one thread each and the others none.  All of
    [0 .. size-1] is covered when [size + 255 < 2^32]; for larger sizes
    below [2^32] the block count wraps to 0; for [size >= 2^32] the
    coverage ends below [size] and the elements beyond it keep their old
    value. *)
Theorem conversion_grid_coverage (NDEBUG : bool) (size gx : Z) :
  0 <= size < 2 ^ 64 ->
  getBlockCount NDEBUG (u32 size) 256 = Ret gx ->
  let g := Dim3 gx 1 1 in
  let b := Dim3 256 1 1 in
  gx = u32 (size mod 2 ^ 32 + 256 - 1) / 256 /\
  (forall rt F32 U16 (HC : HalfConv F32 U16) (src : list F32) (dev : Device U16),
     exists st dev', fp32Tofp16 NDEBUG rt src size dev = Ret (st, dev') /\
                     launched dev' = launched dev ++ [(Kfp32Tofp16, g, b)]) /\
  (forall rt F32 U16 (HC : HalfConv F32 U16) (src : list U16) (dev : Device F32),
     exists st dev', fp16Tofp32 NDEBUG rt src size dev = Ret (st, dev') /\
                     launched dev' = launched dev ++ [(Kfp16Tofp32, g, b)]) /\
  (forall tid, covered_once gx tid <-> 0 <= tid < gx * 256) /\
  (size + 255 < 2 ^ 32 -> forall tid, 0 <= tid < size -> covered_once gx tid) /\
  (2 ^ 32 - 256 < size < 2 ^ 32 -> gx = 0 /\ forall tid, ~ covered_once gx tid) /\
  (2 ^ 32 <= size ->
   gx * 256 < size /\ forall tid, gx * 256 <= tid < size -> ~ covered_once gx tid) /\
  (forall F32 U16 (HC : HalfConv F32 U16) (src : list F32) (dst dst' : list U16),
     run_grid (fp32Tofp16Kernel src size) g b dst = Some dst' ->
     forall j, gx * 256 <= j -> rd dst' j = rd dst j) /\
  (forall F32 U16 (HC : HalfConv F32 U16) (src : list U16) (dst dst' : list F32),
     run_grid (fp16Tofp32Kernel src size) g b dst = Some dst' ->
     forall j, gx * 256 <= j -> rd dst' j = rd dst j).
Proof.
  intros Hsize Eg g b.
  destruct (getBlockCount_Ret _ _ _ _ Eg) as [_ Hgx].
  assert (Hlt : 0 <= gx * 256 < 2 ^ 32).
  { rewrite Hgx. unfold u32.
    pose proof (Z.mod_pos_bound (size mod 2 ^ 32 + 256 - 1) (2 ^ 32) ltac:(lia)) as Hm.
    pose proof (Z.div_mod ((size mod 2 ^ 32 + 256 - 1) mod 2 ^ 32) 256 ltac:(lia)).
    pose proof (Z.mod_pos_bound ((size mod 2 ^ 32 + 256 - 1) mod 2 ^ 32) 256 ltac:(lia)).
    lia. }
  assert (Hb : 0 <= gx * 256 <= 2 ^ 32) by lia.
  pose proof (covered_once_iff gx) as Hcov.
  split; [exact Hgx|].
  split.
  { intros rt F32 U16 HC src dev. unfold fp32Tofp16. simpl. rewrite Eg. simpl.
    destruct (CHECKK_last NDEBUG rt
                (launch rt Kfp32Tofp16 (fp32Tofp16Kernel src size) g b dev)) as [st E].
    exists st. eexists. split; [exact E|]. simpl. apply launched_launch. }
  split.
  { intros rt F32 U16 HC src dev. unfold fp16Tofp32. simpl. rewrite Eg. simpl.
    destruct (CHECKK_last NDEBUG rt
                (launch rt Kfp16Tofp32 (fp16Tofp32Kernel src size) g b dev)) as [st E].
    exists st. eexists. split; [exact E|]. simpl. apply launched_launch. }
  split; [intros tid; by apply Hcov|].
  split.
  { intros Hs tid Htid. apply Hcov; [done|].
    rewrite Hgx. unfold u32. rewrite (Z.mod_small size), Z.mod_small by lia.
    pose proof (Z.div_mod (size + 256 - 1) 256 ltac:(lia)).
    pose proof (Z.mod_pos_bound (size + 256 - 1) 256 ltac:(lia)). lia. }
  split.
  { intros Hs.
    assert (gx = 0) as E0.
    { rewrite Hgx. unfold u32. rewrite (Z.mod_small size) by lia.
      replace (size + 256 - 1) with (size - (2 ^ 32 - 255) + 1 * 2 ^ 32) by lia.
      rewrite Z.mod_add, Z.mod_small by lia. apply Z.div_small. lia. }
    split; [done|]. intros tid Hc. apply Hcov in Hc; [|done]. lia. }
  split.
  { intros Hs. split; [lia|]. intros tid Htid Hc. apply Hcov in Hc; [|done]. lia. }
  split.
  - intros F32 U16 HC src dst dst'. by apply fp32Tofp16_grid_frame.
  - intros F32 U16 HC src dst dst'. by apply fp16Tofp32_grid_frame.
Qed.

(** * Concrete runs *)

(** A descriptor with the given extents. *)
Definition dims_of_list (l : list Z) : Dims :=
  mkDims (Z.of_nat (length l)) (fun i => nth i l 0).

(** The examples of the specification, on integer elements. *)
Example cost_volume_example :
  computeCostVolume false device_runtime [1; 2; 3; 4] [10; 20; 30; 40]
    (dims_of_list [1; 1; 4]) (dims_of_list [2; 2; 1; 4])
    (mkDevice (Some (replicate 16 (-1))) cudaSuccess [])
  = Ret (cudaSuccess,
         mkDevice (Some [1; 2; 3; 4; 10; 20; 30; 40; 1; 2; 3; 4; 0; 10; 20; 30])
           cudaSuccess (cost_volume_launches 1 1 4)).
Proof. vm_compute. reflexivity. Qed.

Example bias_example :
  addDBiasTo3DConv false device_runtime [100; 200]
    (dims_of_list [1; 1; 2; 1; 1]) (dims_of_list [1; 2; 1; 1])
    (mkDevice (Some [5; 7]) cudaSuccess [])
  = Ret (cudaSuccess,
         mkDevice (Some [105; 207]) cudaSuccess
           [(KaddDBiasTo3DConv, Dim3 1 1 2, Dim3 16 16 1)]).
Proof. vm_compute. reflexivity. Qed.



Lemma addDBiasTo3DConv_adds_bias_witness :
  exists conv',
    addDBiasTo3DConv false device_runtime [100; 200]
      (dims_of_list [1; 1; 2; 1; 1]) (dims_of_list [1; 2; 1; 1])
      (mkDevice (Some [5; 7]) cudaSuccess [])
    = Ret (cudaSuccess,
           mkDevice (Some conv') cudaSuccess
             ([] ++ [(KaddDBiasTo3DConv, grid_of (1 * 2) 1 1, Dim3 16 16 1)])) /\
    length conv' = length [5; 7] /\
    (forall n dd y x,
       0 <= n < 1 -> 0 <= dd < 2 -> 0 <= y < 1 -> 0 <= x < 1 ->
       let k := n * 2 + dd in
       exists v bv,
         rd [5; 7] (feat_index 1 1 k y x) = Some v /\
         rd [100; 200] (k mod 2) = Some bv /\
         rd conv' (feat_index 1 1 k y x) = Some (add v bv)) /\
    (forall j,
       ~ (exists k y x, 0 <= k < 1 * 2 /\ 0 <= y < 1 /\ 0 <= x < 1 /\
                        j = feat_index 1 1 k y x) ->
       rd conv' j = rd [5; 7] j).
Proof.
  refine (addDBiasTo3DConv_adds_bias false device_runtime [100; 200]
            (dims_of_list [1; 1; 2; 1; 1]) (dims_of_list [1; 2; 1; 1]) [5; 7] [] _).
  split; vm_compute; try done. right. repeat split; done.
Defined.


Lemma addDBiasTo3DConv_bias_dims_irrelevant_witness :
  addDBiasTo3DConv false device_runtime [100; 200]
    (dims_of_list [1; 1; 2; 1; 1]) (dims_of_list [1; 2; 1; 1])
    (mkDevice (Some [5; 7]) cudaSuccess [])
  = addDBiasTo3DConv false device_runtime [100; 200]
      (dims_of_list [1; 9; 2; 8; 7]) (dims_of_list [1; 2; 1; 1])
      (mkDevice (Some [5; 7]) cudaSuccess []).
Proof.
  apply (addDBiasTo3DConv_bias_dims_irrelevant false device_runtime [100; 200]
           (dims_of_list [1; 1; 2; 1; 1]) (dims_of_list [1; 9; 2; 8; 7]));
    reflexivity.
Defined.

(** A channel count beyond the grid limit: the left-copy launch is refused
    and nothing else is launched. *)
Lemma launch_error_stops_operation_witness :
  computeCostVolume false device_runtime [] [] (dims_of_list [70000; 1; 1])
    (dims_of_list [2; 140000; 1; 1]) (mkDevice (Some [5; 7]) cudaSuccess [])
  = Ret (cudaErrorInvalidConfiguration,
         mkDevice (Some [5; 7]) cudaSuccess
           [(KcostVolumeCopy, Dim3 1 1 70000, Dim3 16 16 1)]).
Proof.
  destruct (launch_error_stops_operation false device_runtime) as (_ & Hcv & _).
  destruct (Hcv Z _ [] [] (dims_of_list [70000; 1; 1]) (dims_of_list [2; 140000; 1; 1])
              (mkDevice (Some [5; 7]) cudaSuccess []) 1 1 70000) as [H1 _].
  - right. split; reflexivity.
  - reflexivity.
  - reflexivity.
  - reflexivity.
  - apply H1. vm_compute. done.
Defined.

(** A row count whose grid has 65536 blocks along y. *)
Lemma oversized_grid_outcome_witness :
  addDBiasTo3DConv true device_runtime [100] (dims_of_list [1; 1; 1; 1; 1])
    (dims_of_list [1; 1; 1048561; 1]) (mkDevice (Some [5; 7]) cudaSuccess [])
  = Ret (cudaErrorInvalidConfiguration,
         mkDevice (Some [5; 7]) cudaSuccess
           [(KaddDBiasTo3DConv, Dim3 1 65536 1, Dim3 16 16 1)]) /\
  addDBiasTo3DConv false device_runtime [100] (dims_of_list [1; 1; 1; 1; 1])
    (dims_of_list [1; 1; 1048561; 1]) (mkDevice (Some [5; 7]) cudaSuccess [])
  = Abort.
Proof.
  split.
  - destruct (oversized_grid_outcome true device_runtime device_runtime_refuses) as [_ Hb].
    destruct (Hb Z _ [100] (dims_of_list [1; 1; 1; 1; 1]) (dims_of_list [1; 1; 1048561; 1])
                (mkDevice (Some [5; 7]) cudaSuccess []) 1 65536 1) as [H1 _];
      [reflexivity | reflexivity | reflexivity | left; vm_compute; reflexivity |].
    destruct (H1 eq_refl) as [_ E]. exact E.
  - destruct (oversized_grid_outcome false device_runtime device_runtime_refuses) as [_ Hb].
    destruct (Hb Z _ [100] (dims_of_list [1; 1; 1; 1; 1]) (dims_of_list [1; 1; 1048561; 1])
                (mkDevice (Some [5; 7]) cudaSuccess []) 1 65536 1) as [_ H2];
      [reflexivity | reflexivity | reflexivity | left; vm_compute; reflexivity |].
    exact (H2 eq_refl).
Defined.

(** C6 read as a returned status fails in a debug build: with 1048561 rows the grid has
    65536 blocks along y and [addDBiasTo3DConv] is stopped by its assertion;
    it returns no status. *)
Lemma oversized_grid_debug_abort :
  ~ (forall NDEBUG rt, refuses_oversized_grids rt ->
     forall (bias : list Z) bias_dims conv_dims (dev : Device Z) gx gy gz,
       getBlockCount NDEBUG (u32 (d conv_dims 3)) 16 = Ret gx ->
       getBlockCount NDEBUG (u32 (d conv_dims 2)) 16 = Ret gy ->
       getBlockCount NDEBUG (u32 (i32 (d conv_dims 0 * d conv_dims 1))) 1 = Ret gz ->
       kMaxGridSizeY < gy \/ kMaxGridSizeZ < gz ->
       exists st dev',
         addDBiasTo3DConv NDEBUG rt bias bias_dims conv_dims dev = Ret (st, dev') /\
         st <> cudaSuccess).
Proof.
  intros Hclaim.
  destruct (Hclaim false device_runtime device_runtime_refuses [100]
              (dims_of_list [1; 1; 1; 1; 1]) (dims_of_list [1; 1; 1048561; 1])
              (mkDevice (Some [5; 7]) cudaSuccess []) 1 65536 1)
    as (st & dev' & E & _);
    [reflexivity | reflexivity | reflexivity | left; vm_compute; reflexivity |].
  vm_compute in E. discriminate E.
Qed.

Lemma conversion_grid_coverage_witness :
  getBlockCount false (u32 1000) 256 = Ret 4 /\ covered_once 4 0 /\ covered_once 4 999.
Proof.
  destruct (conversion_grid_coverage false 1000 4) as (_ & _ & _ & _ & Hcov & _).
  - vm_compute. split; [discriminate | reflexivity].
  - vm_compute. reflexivity.
  - split; [reflexivity|]. split; apply Hcov; vm_compute; (reflexivity || (split; [discriminate | reflexivity])).
Defined.

(** C9 with the bound [size < 2^32] alone fails just below [2^32]: for [size = 2^32 - 1] the sum
    [size + 255] wraps, the block count is 0 and no element has a thread. *)
Lemma conversion_coverage_wraps :
  ~ (forall NDEBUG size, 0 < size < 2 ^ 32 ->
       exists gx, getBlockCount NDEBUG (u32 size) 256 = Ret gx /\
                  forall tid, 0 <= tid < size -> covered_once gx tid).
Proof.
  intros Hclaim.
  destruct (Hclaim true 4294967295 ltac:(lia)) as (gx & E & Hcov).
  vm_compute in E. injection E as <-.
  destruct (Hcov 0 ltac:(lia)) as ([bi ti] & Ht & _).
  apply elem_of_threads in Ht. simpl in Ht. lia.
Qed.

(** * Further properties *)

(** ** The block count at the edges of its domain *)

(** X1: in a debug build, on 32-bit inputs with a positive block size,
    [getBlockCount] returns the ceiling of the quotient when the extent is
    positive and [total_size + block_size - 1] fits 32 bits, and its
    assertions stop every other call: an extent of zero, and every sum that
    wraps. *)
Theorem getBlockCount_debug_guard (total bs : Z) :
  0 <= total < 2 ^ 32 -> 0 < bs < 2 ^ 32 ->
  (0 < total /\ total + bs - 1 < 2 ^ 32 ->
   getBlockCount false total bs = Ret (ceil_div total bs)) /\
  (total = 0 \/ 2 ^ 32 <= total + bs - 1 ->
   getBlockCount false total bs = Abort).
Proof.
  intros Ht Hb. split.
  - intros [Hpos Hw]. apply getBlockCount_no_wrap; lia.
  - intros Hbad. unfold getBlockCount, assert.
    destruct (Z.eqb_spec bs 0); [lia|].
    set (res := u32 (total + bs - 1) / bs).
    assert (Hres : 0 <= res /\ res * bs < total \/ res = 0).
    { unfold res, u32. destruct Hbad as [-> | Hw].
      - right. rewrite Z.mod_small by lia. apply Z.div_small. lia.
      - left.
        replace (total + bs - 1) with (total + bs - 1 - 2 ^ 32 + 1 * 2 ^ 32) by lia.
        rewrite Z.mod_add, Z.mod_small by lia.
        pose proof (Z.div_mod (total + bs - 1 - 2 ^ 32) bs ltac:(lia)).
        pose proof (Z.mod_pos_bound (total + bs - 1 - 2 ^ 32) bs ltac:(lia)).
        split; [apply Z.div_pos; lia | nia]. }
    destruct (Z.ltb_spec 0 res); [|done]. simpl.
    destruct Hres as [[Hr0 Hlt] | ->]; [|lia].
    rewrite u64_small by nia.
    destruct (Z.leb_spec total (res * bs)); [lia|done].
Qed.

Lemma getBlockCount_debug_guard_witness :
  getBlockCount false 4294967295 16 = Abort.
Proof.
  destruct (getBlockCount_debug_guard 4294967295 16) as [_ H]; [lia | lia |].
  apply H. right. lia.
Defined.

(** X2: in a release build nothing stops a wrapped sum: the block count
    that [getBlockCount] returns then covers less than the extent. *)
Theorem getBlockCount_release_undercovers (total bs : Z) :
  0 < total < 2 ^ 32 -> 0 < bs < 2 ^ 32 -> 2 ^ 32 <= total + bs - 1 ->
  exists res, getBlockCount true total bs = Ret res /\ 0 <= res /\ res * bs < total.
Proof.
  intros Ht Hb Hw. unfold getBlockCount, assert.
  destruct (Z.eqb_spec bs 0); [lia|]. simpl.
  eexists. split; [reflexivity|]. unfold u32.
  replace (total + bs - 1) with (total + bs - 1 - 2 ^ 32 + 1 * 2 ^ 32) by lia.
  rewrite Z.mod_add, Z.mod_small by lia.
  pose proof (Z.div_mod (total + bs - 1 - 2 ^ 32) bs ltac:(lia)).
  pose proof (Z.mod_pos_bound (total + bs - 1 - 2 ^ 32) bs ltac:(lia)).
  split; [apply Z.div_pos; lia | nia].
Qed.

Lemma getBlockCount_release_undercovers_witness :
  exists res, getBlockCount true 4294967295 256 = Ret res /\ 0 <= res /\
              res * 256 < 4294967295.
Proof. apply (getBlockCount_release_undercovers 4294967295 256); lia. Defined.

(** ** The single-pass cost-volume kernel *)

Lemma in_stride_other stride i i' lo hi lo' hi' j :
  in_stride stride i lo hi j = true -> i <> i' -> in_stride stride i' lo' hi' j = false.
Proof.
  intros Hin Hne. apply in_stride_mod in Hin. unfold in_stride.
  destruct (Z.eqb_spec (j mod stride) i'); [lia|]. by rewrite andb_false_r.
Qed.


Section SinglePass.
Context {T : Type} {ET : Elem T}.


Variables (C H W D : Z) (g b : dim3).
Hypothesis (HC : 0 < C) (HH : 0 < H) (HW : 0 < W) (HD : 0 <= D <= INT32_MAX).
Hypothesis (Hvol : 2 * (C * H * W) <= INT32_MAX).
Hypothesis (Hfit : grid_fits C H W g b).

Local Abbreviation CHW := (C * H * W).





End SinglePass.



(** ** The cost volume as a whole *)









(** ** Launches in general: extensionality, lengths, faults *)

Lemma run_threads_ext {T} (k1 k2 : dim3 -> dim3 -> list T -> option (list T)) ts :
  (forall t m, t ∈ ts -> k1 t.1 t.2 m = k2 t.1 t.2 m) ->
  forall m, run_threads k1 ts m = run_threads k2 ts m.
Proof.
  induction ts as [|t ts IH]; intros Hk m; [done|]. simpl.
  rewrite (Hk t m ltac:(left)). destruct (k2 t.1 t.2 m) as [m1|]; [|done]. simpl.
  apply IH. intros t' m' Ht'. apply Hk. by right.
Qed.


Section LoopBounds.
Context {T : Type} {ET : Elem T}.





Variables (C H W D : Z) (g b : dim3).
Hypothesis (HC : 0 < C) (HH : 0 < H) (HW : 0 < W).
Hypothesis (Hvol : 2 * (C * H * W) <= INT32_MAX).
Hypothesis (Hfit : grid_fits C H W g b).

Local Abbreviation CHW := (C * H * W).

(** With no disparity level to fill, the launches change nothing. *)
Lemma copy_grid_nonpos (left dst : list T) :
  D <= 0 -> CHW <= Z.of_nat (length left) ->
  run_grid (costVolumeCopyKernel left C H W D) g b dst = Some dst.
Proof.
  intros HD Hleft.
  destruct (copy_grid_spec C H W 0 g b HC HH HW ltac:(unfold INT32_MAX; lia) Hvol Hfit
              left dst Hleft ltac:(lia)) as (dst' & E & L & P).
  assert (dst' = dst) as ->.
  { apply buffer_ext. intros j. rewrite P. unfold left_region.
    destruct (Z.leb_spec 0 j); [|done].
    pose proof (Z.div_pos j (2 * CHW) ltac:(lia) ltac:(lia)).
    destruct (Z.ltb_spec (j / (2 * CHW)) 0); [lia|]. by rewrite andb_false_r. }
  rewrite <- E. unfold run_grid. apply run_threads_ext. intros t m _.
  unfold costVolumeCopyKernel. by replace (Z.to_nat D) with (Z.to_nat 0) by lia.
Qed.

Lemma pad_grid_nonpos (right dst : list T) :
  D <= 0 -> CHW <= Z.of_nat (length right) ->
  run_grid (costVolumeCopyPadKernel right C H W D) g b dst = Some dst.
Proof.
  intros HD Hright.
  destruct (pad_grid_spec C H W 0 g b HC HH HW ltac:(unfold INT32_MAX; lia) Hvol Hfit
              right dst Hright ltac:(lia)) as (dst' & E & L & P).
  assert (dst' = dst) as ->.
  { apply buffer_ext. intros j. rewrite P. unfold right_region.
    destruct (Z.leb_spec 0 j); [|done].
    pose proof (Z.div_pos j (2 * CHW) ltac:(lia) ltac:(lia)).
    destruct (Z.ltb_spec (j / (2 * CHW)) 0); [lia|]. by rewrite andb_false_r. }
  rewrite <- E. unfold run_grid. apply run_threads_ext. intros t m _.
  unfold costVolumeCopyPadKernel. by replace (Z.to_nat D) with (Z.to_nat 0) by lia.
Qed.

End LoopBounds.

(** ** [computeCostVolume] at the edges *)

Lemma computeCostVolume_launches (NDEBUG : bool) (rt : Runtime) {T : Type} {ET : Elem T}
    (left right : list T) (in_dims out_dims : Dims) (dev : Device T) :
  NDEBUG = true \/ (nbDims in_dims = 3 /\ nbDims out_dims = 4) ->
  0 < d in_dims 0 <= INT32_MAX -> 0 < d in_dims 1 <= INT32_MAX ->
  0 < d in_dims 2 <= INT32_MAX ->
  let g := grid_of (d in_dims 0) (d in_dims 1) (d in_dims 2) in
  let b := Dim3 16 16 1 in
  computeCostVolume NDEBUG rt left right in_dims out_dims dev
  = CHECKK NDEBUG rt
      (launch rt KcostVolumeCopy
         (costVolumeCopyKernel left (d in_dims 0) (d in_dims 1) (d in_dims 2) (d out_dims 0))
         g b dev)
      (fun dev =>
         CHECKK NDEBUG rt
           (launch rt KcostVolumeCopyPad
              (costVolumeCopyPadKernel right (d in_dims 0) (d in_dims 1) (d in_dims 2)
                 (d out_dims 0)) g b dev)
           (fun dev => Ret (cudaSuccess, dev))).
Proof.
  intros Hrank HC HH HW g b. unfold computeCostVolume.
  rewrite !assert_pass
    by (destruct Hrank as [?|[E3 E4]]; [by left | right; by rewrite ?E3, ?E4]).
  simpl. by rewrite !getBlockCount_extent by lia.
Qed.

(** X7: with a disparity count [out_dims.d[0]] of zero or less,
    [computeCostVolume] issues both launches, writes nothing and returns
    [cudaSuccess], whatever the size of the destination buffer. *)
Theorem computeCostVolume_no_disparity (NDEBUG : bool) (rt : Runtime) {T : Type} {ET : Elem T}
    (left right : list T) (in_dims out_dims : Dims) (vol : list T) log :
  NDEBUG = true \/ (nbDims in_dims = 3 /\ nbDims out_dims = 4) ->
  0 < d in_dims 0 -> 0 < d in_dims 1 -> 0 < d in_dims 2 ->
  2 * (d in_dims 0 * d in_dims 1 * d in_dims 2) <= INT32_MAX ->
  d in_dims 0 * d in_dims 1 * d in_dims 2 <= Z.of_nat (length left) ->
  d in_dims 0 * d in_dims 1 * d in_dims 2 <= Z.of_nat (length right) ->
  launch_check rt (grid_of (d in_dims 0) (d in_dims 1) (d in_dims 2)) (Dim3 16 16 1)
  = cudaSuccess ->
  d out_dims 0 <= 0 ->
  computeCostVolume NDEBUG rt left right in_dims out_dims (mkDevice (Some vol) cudaSuccess log)
  = Ret (cudaSuccess,
         mkDevice (Some vol) cudaSuccess
           (log ++ cost_volume_launches (d in_dims 0) (d in_dims 1) (d in_dims 2))).
Proof.
  intros Hrank HC HH HW Hvol Hleft Hright Hrt HD.
  destruct (extents_le_volume _ _ _ HC HH HW) as (?&?&?).
  pose proof (grid_fits_ceil (d in_dims 0) (d in_dims 1) (d in_dims 2)
                ltac:(lia) ltac:(lia) ltac:(lia)) as Hfit.
  fold (grid_of (d in_dims 0) (d in_dims 1) (d in_dims 2)) in Hfit.
  rewrite computeCostVolume_launches by (done || lia).
  rewrite launch_accepted by done. simpl.
  rewrite (copy_grid_nonpos _ _ _ _ _ _ HC HH HW Hvol Hfit) by done. simpl.
  rewrite CHECKK_pass, launch_accepted by done. simpl.
  rewrite (pad_grid_nonpos _ _ _ _ _ _ HC HH HW Hvol Hfit) by done. simpl.
  rewrite CHECKK_pass. unfold cost_volume_launches. by rewrite <- app_assoc.
Qed.

Lemma computeCostVolume_no_disparity_witness :
  computeCostVolume false device_runtime [1; 2; 3; 4] [10; 20; 30; 40]
    (dims_of_list [1; 1; 4]) (dims_of_list [0; 2; 1; 4]) (mkDevice (Some [7]) cudaSuccess [])
  = Ret (cudaSuccess,
         mkDevice (Some [7]) cudaSuccess ([] ++ cost_volume_launches 1 1 4)).
Proof.
  refine (computeCostVolume_no_disparity false device_runtime [1; 2; 3; 4] [10; 20; 30; 40]
            (dims_of_list [1; 1; 4]) (dims_of_list [0; 2; 1; 4]) [7] [] _ _ _ _ _ _ _ _ _);
    vm_compute; try done. right. done.
Defined.





(** ** Launch geometry and thread order *)





Example short_buffer_debug :
  computeCostVolume false device_runtime [1; 2; 3; 4] [10; 20; 30; 40]
    (dims_of_list [1; 1; 4]) (dims_of_list [2; 2; 1; 4])
    (mkDevice (Some (replicate 15 (-1))) cudaSuccess [])
  = Ret (cudaErrorIllegalAddress, mkDevice None cudaSuccess (cost_volume_launches 1 1 4)).
Proof. vm_compute. reflexivity. Qed.

(** ** More on the bias addition *)

Lemma launch_ext {T} rt id (k1 k2 : kernel T) g b (dev : Device T) :
  (forall t m, t ∈ threads g b -> k1 t.1 b t.2 m = k2 t.1 b t.2 m) ->
  launch rt id k1 g b dev = launch rt id k2 g b dev.
Proof.
  intros Hk. unfold launch. destruct (launch_check rt g b =? cudaSuccess); [|done].
  f_equal. destruct (dmem dev) as [m|]; [|done]. simpl. unfold run_grid.
  by apply run_threads_ext.
Qed.

(** X11: [addDBiasTo3DConv] reads the first [D] elements of the bias
    buffer and no other: two bias buffers that agree on them give the same
    status and the same device state, for every input with a positive depth
    extent [D = conv_dims.d[1]]. *)
Theorem addDBiasTo3DConv_reads_depth_many (NDEBUG : bool) (rt : Runtime)
    {T : Type} {ET : Elem T} (bias1 bias2 : list T) (bias_dims conv_dims : Dims)
    (dev : Device T) :
  0 < d conv_dims 1 <= INT32_MAX ->
  (forall i, 0 <= i < d conv_dims 1 -> rd bias1 i = rd bias2 i) ->
  addDBiasTo3DConv NDEBUG rt bias1 bias_dims conv_dims dev
  = addDBiasTo3DConv NDEBUG rt bias2 bias_dims conv_dims dev.
Proof.
  intros HD Hb. unfold addDBiasTo3DConv, INT32_MAX in *.
  repeat (match goal with
          | |- context [assert ?n ?c] => destruct (assert n c); simpl; try done
          | |- context [getBlockCount ?n ?t ?s] =>
              destruct (getBlockCount n t s); simpl; try done
          end).
  f_equal. apply launch_ext. intros t m _. unfold addDBiasTo3DConvKernel.
  destruct (_ || _); [done|].
  rewrite (u32_small (d conv_dims 1)) by lia.
  set (iz := u32 (dim_z t.1 * dim_z (Dim3 16 16 1) + dim_z t.2)).
  assert (0 <= iz) by (unfold iz, u32; apply Z.mod_pos_bound; lia).
  pose proof (Z.mod_pos_bound iz (d conv_dims 1) ltac:(lia)).
  rewrite i32_small by lia. by rewrite Hb by lia.
Qed.

Lemma addDBiasTo3DConv_reads_depth_many_witness :
  addDBiasTo3DConv false device_runtime [100; 200] (dims_of_list [1; 1; 2; 1; 1])
    (dims_of_list [1; 2; 1; 1]) (mkDevice (Some [5; 7]) cudaSuccess [])
  = addDBiasTo3DConv false device_runtime [100; 200; 300; 400] (dims_of_list [1; 1; 2; 1; 1])
      (dims_of_list [1; 2; 1; 1]) (mkDevice (Some [5; 7]) cudaSuccess []).
Proof.
  apply (addDBiasTo3DConv_reads_depth_many false device_runtime [100; 200]
           [100; 200; 300; 400] (dims_of_list [1; 1; 2; 1; 1]) (dims_of_list [1; 2; 1; 1])).
  - vm_compute. done.
  - intros i Hi. simpl in Hi.
    assert (i = 0 \/ i = 1) as [-> | ->] by lia; reflexivity.
Defined.

(** X12: adding a bias whose first [D] elements are zero leaves the
    convolution buffer as it is, for an element type in which adding zero
    on the right changes nothing. *)
Theorem addDBiasTo3DConv_zero_bias (NDEBUG : bool) (rt : Runtime) {T : Type} {ET : Elem T}
    (bias : list T) (bias_dims conv_dims : Dims) (conv : list T) log :
  (forall v : T, add v zero = v) ->
  bias_pre NDEBUG rt bias bias_dims conv_dims conv ->
  (forall i, 0 <= i < d conv_dims 1 -> rd bias i = Some zero) ->
  addDBiasTo3DConv NDEBUG rt bias bias_dims conv_dims (mkDevice (Some conv) cudaSuccess log)
  = Ret (cudaSuccess,
         mkDevice (Some conv) cudaSuccess
           (log ++ [(KaddDBiasTo3DConv,
                     grid_of (d conv_dims 0 * d conv_dims 1) (d conv_dims 2) (d conv_dims 3),
                     Dim3 16 16 1)])).
Proof.
  intros Hzero Hpre Hb.
  destruct (addDBiasTo3DConv_spec NDEBUG rt bias bias_dims conv_dims conv log Hpre)
    as (conv' & E & L & P).
  cbv zeta in *. rewrite E.
  enough (conv' = conv) as -> by done.
  apply buffer_ext. intros j. rewrite P.
  destruct ((0 <=? j) && (j <? _)); [|done].
  unfold val_bias. destruct (rd conv j) as [v|]; [|done]. simpl.
  destruct Hpre.
  rewrite Hb by (apply Z.mod_pos_bound; lia). simpl. by rewrite Hzero.
Qed.

Lemma addDBiasTo3DConv_zero_bias_witness :
  addDBiasTo3DConv false device_runtime [0; 0] (dims_of_list [1; 1; 2; 1; 1])
    (dims_of_list [1; 2; 1; 1]) (mkDevice (Some [5; 7]) cudaSuccess [])
  = Ret (cudaSuccess,
         mkDevice (Some [5; 7]) cudaSuccess
           ([] ++ [(KaddDBiasTo3DConv, grid_of (1 * 2) 1 1, Dim3 16 16 1)])).
Proof.
  refine (addDBiasTo3DConv_zero_bias false device_runtime [0; 0]
            (dims_of_list [1; 1; 2; 1; 1]) (dims_of_list [1; 2; 1; 1]) [5; 7] [] _ _ _).
  - intros v. simpl. lia.
  - split; vm_compute; try done. right. repeat split; done.
  - intros i Hi. simpl in Hi.
    assert (i = 0 \/ i = 1) as [-> | ->] by lia; reflexivity.
Defined.

(** X13: on a tensor [[N,D,H,W]] of at most [INT32_MAX] elements, where
    the 32-bit element index of the kernel does not wrap and no two threads
    share an element, the bias kernel depends neither on the launch geometry
    nor on the order of the threads: any grid that covers the tensor within
    the 32-bit coordinate range, run in any order, gives the buffer that the
    grid of [addDBiasTo3DConv] gives. *)
Theorem bias_geometry_and_schedule_irrelevant {T : Type} {ET : Elem T}
    (bias conv : list T) (N D H W : Z) (g b : dim3) (ts : list (dim3 * dim3)) :
  0 < N -> 0 < D -> 0 < H -> 0 < W ->
  N * D * H * W <= INT32_MAX ->
  D <= Z.of_nat (length bias) ->
  N * D * H * W <= Z.of_nat (length conv) ->
  grid_fits (N * D) H W g b ->
  threads g b ≡ₚ ts ->
  run_threads (fun bi ti => addDBiasTo3DConvKernel bias N D H W bi b ti) ts conv
  = run_grid (addDBiasTo3DConvKernel bias N D H W) (grid_of (N * D) H W) (Dim3 16 16 1) conv.
Proof.
  intros HN HD HH HW Hvol Hbias Hconv Hfit Hp.
  assert (0 < N * D) by nia.
  destruct (extents_le_volume (N * D) H W ltac:(lia) HH HW) as (?&?&?).
  pose proof (grid_fits_ceil (N * D) H W ltac:(lia) ltac:(lia) ltac:(lia)) as Hfit0.
  fold (grid_of (N * D) H W) in Hfit0.
  rewrite (bias_grid_order N D H W g b HN HD HH HW Hvol Hfit bias conv ts) by done.
  destruct (bias_grid_spec N D H W g b HN HD HH HW Hvol Hfit bias conv Hbias Hconv)
    as (v1 & -> & _ & P1).
  destruct (bias_grid_spec N D H W _ _ HN HD HH HW Hvol Hfit0 bias conv Hbias Hconv)
    as (v2 & -> & _ & P2).
  f_equal. apply buffer_ext. intros j. by rewrite P1, P2.
Qed.

Lemma bias_geometry_and_schedule_irrelevant_witness :
  run_threads (fun bi ti => addDBiasTo3DConvKernel [100; 200] 1 2 1 1 bi (Dim3 1 1 2) ti)
    (reverse (threads (Dim3 1 1 1) (Dim3 1 1 2))) [5; 7]
  = run_grid (addDBiasTo3DConvKernel [100; 200] 1 2 1 1) (grid_of (1 * 2) 1 1)
      (Dim3 16 16 1) [5; 7].
Proof.
  apply (bias_geometry_and_schedule_irrelevant [100; 200] [5; 7] 1 2 1 1 (Dim3 1 1 1)
           (Dim3 1 1 2) (reverse (threads (Dim3 1 1 1) (Dim3 1 1 2))));
    try (vm_compute; done); try (split; vm_compute; done).
  symmetry. apply reverse_Permutation.
Defined.

(** ** The precision conversions *)

(** X14: on [0 < size] with [size + 255 < 2^32], a successful
    [fp32Tofp16] stores the half-precision bits of [src[j]] at every index
    [j < size] of the destination and leaves the elements from [size] on as
    they were; [fp16Tofp32] does the same with the widening conversion. *)
Theorem precision_conversions_elementwise (NDEBUG : bool) (rt : Runtime)
    {F32 U16 : Type} {HC : HalfConv F32 U16} (size : Z) :
  0 < size -> size + 255 < 2 ^ 32 ->
  launch_check rt (Dim3 (ceil_div size 256) 1 1) (Dim3 256 1 1) = cudaSuccess ->
  (forall (src : list F32) (dst : list U16) log,
     size <= Z.of_nat (length src) -> size <= Z.of_nat (length dst) ->
     exists dst',
       fp32Tofp16 NDEBUG rt src size (mkDevice (Some dst) cudaSuccess log)
       = Ret (cudaSuccess,
              mkDevice (Some dst') cudaSuccess
                (log ++ [(Kfp32Tofp16, Dim3 (ceil_div size 256) 1 1, Dim3 256 1 1)])) /\
       length dst' = length dst /\
       (forall j, 0 <= j < size ->
          exists x, rd src j = Some x /\ rd dst' j = Some (float_to_half_bits x)) /\
       (forall j, size <= j -> rd dst' j = rd dst j)) /\
  (forall (src : list U16) (dst : list F32) log,
     size <= Z.of_nat (length src) -> size <= Z.of_nat (length dst) ->
     exists dst',
       fp16Tofp32 NDEBUG rt src size (mkDevice (Some dst) cudaSuccess log)
       = Ret (cudaSuccess,
              mkDevice (Some dst') cudaSuccess
                (log ++ [(Kfp16Tofp32, Dim3 (ceil_div size 256) 1 1, Dim3 256 1 1)])) /\
       length dst' = length dst /\
       (forall j, 0 <= j < size ->
          exists x, rd src j = Some x /\ rd dst' j = Some (half_bits_to_float x)) /\
       (forall j, size <= j -> rd dst' j = rd dst j)).
Proof.
  intros Hsize Hw Hrt. split.
  - intros src dst log Hsrc Hdst.
    destruct (fp32Tofp16_spec NDEBUG rt src size dst log Hsize Hw Hsrc Hdst Hrt)
      as (dst' & E & L & P).
    exists dst'. split; [done|]. split; [done|]. split.
    + intros j Hj. destruct (rd_in_range src j ltac:(lia)) as [x Hx].
      exists x. split; [done|]. rewrite P, Hx.
      destruct (Z.leb_spec 0 j), (Z.ltb_spec j size); try lia. done.
    + intros j Hj. rewrite P.
      destruct (Z.ltb_spec j size); [lia|]. by rewrite andb_false_r.
  - intros src dst log Hsrc Hdst.
    destruct (fp16Tofp32_spec NDEBUG rt src size dst log Hsize Hw Hsrc Hdst Hrt)
      as (dst' & E & L & P).
    exists dst'. split; [done|]. split; [done|]. split.
    + intros j Hj. destruct (rd_in_range src j ltac:(lia)) as [x Hx].
      exists x. split; [done|]. rewrite P, Hx.
      destruct (Z.leb_spec 0 j), (Z.ltb_spec j size); try lia. done.
    + intros j Hj. rewrite P.
      destruct (Z.ltb_spec j size); [lia|]. by rewrite andb_false_r.
Qed.


(** A stand-in for the two conversions, for running the operations on
    integers: halving and doubling, which restore the even numbers. *)
Definition halving_conv : HalfConv Z Z :=
  {| float_to_half_bits := fun x => x / 2; half_bits_to_float := fun h => 2 * h |}.

Lemma precision_conversions_elementwise_witness :
  exists dst',
    fp32Tofp16 (HC := halving_conv) false device_runtime [10; 21; 30] 3
      (mkDevice (Some [0; 0; 0; 9]) cudaSuccess [])
    = Ret (cudaSuccess,
           mkDevice (Some dst') cudaSuccess
             ([] ++ [(Kfp32Tofp16, Dim3 (ceil_div 3 256) 1 1, Dim3 256 1 1)])) /\
    length dst' = length [0; 0; 0; 9] /\
    (forall j, 0 <= j < 3 ->
       exists x, rd [10; 21; 30] j = Some x /\
                 rd dst' j = Some (float_to_half_bits (HalfConv := halving_conv) x)) /\
    (forall j, 3 <= j -> rd dst' j = rd [0; 0; 0; 9] j).
Proof.
  destruct (precision_conversions_elementwise (HC := halving_conv) false device_runtime 3)
    as [H32 _]; [lia | lia | reflexivity |].
  apply (H32 [10; 21; 30] [0; 0; 0; 9] []); simpl; lia.
Defined.


Example round_trip_run :
  exists mid log1,
    fp32Tofp16 (HC := halving_conv) false device_runtime [10; 21; 30] 3
      (mkDevice (Some [0; 0; 0]) cudaSuccess [])
    = Ret (cudaSuccess, mkDevice (Some mid) cudaSuccess log1) /\
    exists log2,
      fp16Tofp32 (HC := halving_conv) false device_runtime mid 3
        (mkDevice (Some [0; 0; 0]) cudaSuccess [])
      = Ret (cudaSuccess, mkDevice (Some [10; 20; 30]) cudaSuccess log2).
Proof. do 2 eexists. split; [vm_compute; reflexivity|]. eexists. vm_compute. reflexivity. Qed.

(** ** Empty inputs, and what no operation does *)

Lemma threads_empty g b :
  dim_x g <= 0 \/ dim_y g <= 0 \/ dim_z g <= 0 -> threads g b = [].
Proof.
  intros Hg. apply elem_of_nil_inv. intros [bi ti] Ht.
  apply elem_of_threads in Ht. lia.
Qed.

Lemma launch_empty {T} rt id (k : kernel T) g b (dev : Device T) :
  threads g b = [] -> dmem (launch rt id k g b dev) = dmem dev.
Proof.
  intros E. unfold launch, run_grid. rewrite E.
  destruct (launch_check rt g b =? cudaSuccess); [|done]. simpl. by destruct (dmem dev).
Qed.

(** A continuation that returns a status and keeps the buffer. *)
Definition keeps_buffer {T} (k : Device T -> host (cudaError_t * Device T)) : Prop :=
  forall dev, exists st dev', k dev = Ret (st, dev') /\ dmem dev' = dmem dev.

Lemma CHECKK_keeps {T} NDEBUG rt (k : Device T -> host (cudaError_t * Device T)) :
  keeps_buffer k -> keeps_buffer (fun dev => CHECKK NDEBUG rt dev k).
Proof.
  intros Hk dev. unfold CHECKK, cudaGetLastError.
  destruct (negb (last_error dev =? cudaSuccess)); [by do 2 eexists|].
  destruct NDEBUG.
  - destruct (Hk (mkDevice (dmem dev) cudaSuccess (launched dev))) as (st & d2 & E & Em).
    by exists st, d2.
  - destruct (negb (cudaStreamSynchronize rt _ =? cudaSuccess)); [by do 2 eexists|].
    destruct (Hk (mkDevice (dmem dev) cudaSuccess (launched dev))) as (st & d2 & E & Em).
    by exists st, d2.
Qed.

Lemma keeps_buffer_ret {T} : keeps_buffer (fun dev : Device T => Ret (cudaSuccess, dev)).
Proof. intros dev. by exists cudaSuccess, dev. Qed.

Lemma getBlockCount_release_extent v bs :
  0 <= v <= INT32_MAX -> 0 < bs <= 1024 ->
  getBlockCount true (u32 v) bs = Ret (if v =? 0 then 0 else ceil_div v bs).
Proof.
  intros Hv Hb. destruct (Z.eqb_spec v 0) as [->|Hne].
  - unfold getBlockCount, assert. destruct (Z.eqb_spec bs 0); [lia|].
    rewrite (u32_small 0) by lia. rewrite u32_small by lia.
    by rewrite Z.div_small by lia.
  - apply getBlockCount_extent; lia.
Qed.

Lemma getBlockCount_debug_extent v bs :
  0 <= v <= INT32_MAX -> 0 < bs <= 1024 ->
  getBlockCount false (u32 v) bs = if v =? 0 then Abort else Ret (ceil_div v bs).
Proof.
  intros Hv Hb. destruct (Z.eqb_spec v 0) as [->|Hne].
  - unfold getBlockCount, assert. destruct (Z.eqb_spec bs 0); [lia|].
    rewrite (u32_small 0) by lia. rewrite u32_small by lia.
    by rewrite Z.div_small by lia.
  - apply getBlockCount_extent; lia.
Qed.

(** X16: on [size = 0] a debug build of either conversion is stopped by
    the assertion of [getBlockCount]; a release build launches a grid of
    zero blocks, so that no thread runs and the destination is left as it
    is, whatever status the runtime reports for that launch. *)
Theorem conversions_on_empty_input (rt : Runtime) {F32 U16 : Type} {HC : HalfConv F32 U16} :
  (forall (src : list F32) (dev : Device U16),
     fp32Tofp16 false rt src 0 dev = Abort /\
     exists st,
       fp32Tofp16 true rt src 0 dev
       = Ret (st, mkDevice (dmem dev) cudaSuccess
                    (launched dev ++ [(Kfp32Tofp16, Dim3 0 1 1, Dim3 256 1 1)]))) /\
  (forall (src : list U16) (dev : Device F32),
     fp16Tofp32 false rt src 0 dev = Abort /\
     exists st,
       fp16Tofp32 true rt src 0 dev
       = Ret (st, mkDevice (dmem dev) cudaSuccess
                    (launched dev ++ [(Kfp16Tofp32, Dim3 0 1 1, Dim3 256 1 1)]))).
Proof.
  split; intros src dev; (split; [reflexivity|]).
  - unfold fp32Tofp16.
    change (getBlockCount true (u32 0) (dim_x (Dim3 256 1 1))) with (Ret (A := Z) 0).
    simpl.
    destruct (CHECKK_last true rt
                (launch rt Kfp32Tofp16 (fp32Tofp16Kernel src 0) (Dim3 0 1 1) (Dim3 256 1 1) dev))
      as [st E].
    exists st. rewrite E, launched_launch, launch_empty; [done|].
    apply threads_empty. simpl. lia.
  - unfold fp16Tofp32.
    change (getBlockCount true (u32 0) (dim_x (Dim3 256 1 1))) with (Ret (A := Z) 0).
    simpl.
    destruct (CHECKK_last true rt
                (launch rt Kfp16Tofp32 (fp16Tofp32Kernel src 0) (Dim3 0 1 1) (Dim3 256 1 1) dev))
      as [st E].
    exists st. rewrite E, launched_launch, launch_empty; [done|].
    apply threads_empty. simpl. lia.
Qed.

(** X17: when one of the extents [C], [H], [W] of the feature map is
    zero, a debug build of [computeCostVolume] is stopped by an assertion;
    a release build launches grids without blocks and returns a status with
    the destination left as it is.  [addDBiasTo3DConv] behaves in the same
    way when [N * D], [H] or [W] is zero. *)
Theorem zero_extent_writes_nothing (NDEBUG : bool) (rt : Runtime) {T : Type} {ET : Elem T} :
  (forall (left right : list T) in_dims out_dims (dev : Device T),
     0 <= d in_dims 0 <= INT32_MAX -> 0 <= d in_dims 1 <= INT32_MAX ->
     0 <= d in_dims 2 <= INT32_MAX ->
     d in_dims 0 = 0 \/ d in_dims 1 = 0 \/ d in_dims 2 = 0 ->
     if NDEBUG
     then exists st dev',
            computeCostVolume NDEBUG rt left right in_dims out_dims dev = Ret (st, dev') /\
            dmem dev' = dmem dev
     else computeCostVolume NDEBUG rt left right in_dims out_dims dev = Abort) /\
  (forall (bias : list T) bias_dims conv_dims (dev : Device T),
     0 <= d conv_dims 0 * d conv_dims 1 <= INT32_MAX ->
     0 <= d conv_dims 2 <= INT32_MAX -> 0 <= d conv_dims 3 <= INT32_MAX ->
     d conv_dims 0 * d conv_dims 1 = 0 \/ d conv_dims 2 = 0 \/ d conv_dims 3 = 0 ->
     if NDEBUG
     then exists st dev',
            addDBiasTo3DConv NDEBUG rt bias bias_dims conv_dims dev = Ret (st, dev') /\
            dmem dev' = dmem dev
     else addDBiasTo3DConv NDEBUG rt bias bias_dims conv_dims dev = Abort).
Proof.
  split.
  - intros left right in_dims out_dims dev HC HH HW Hzero.
    unfold computeCostVolume. simpl.
    destruct NDEBUG.
    + rewrite !getBlockCount_release_extent by lia. simpl.
      match goal with |- context [launch rt KcostVolumeCopy _ ?g0 _ _] => set (g := g0) end.
      assert (Hg : threads g (Dim3 16 16 1) = []).
      { apply threads_empty. unfold g. simpl.
        destruct (Z.eqb_spec (d in_dims 2) 0), (Z.eqb_spec (d in_dims 1) 0),
                 (Z.eqb_spec (d in_dims 0) 0); lia. }
      set (K := fun dev0 : Device T => CHECKK true rt (launch rt KcostVolumeCopyPad _ g _ dev0) _).
      assert (HK : keeps_buffer K).
      { intros dev0. unfold K.
        destruct (CHECKK_keeps true rt _ keeps_buffer_ret
                    (launch rt KcostVolumeCopyPad
                       (costVolumeCopyPadKernel right (d in_dims 0) (d in_dims 1) (d in_dims 2)
                          (d out_dims 0)) g (Dim3 16 16 1) dev0)) as (st & d2 & E & Em).
        exists st, d2. split; [exact E|]. by rewrite Em, launch_empty. }
      destruct (CHECKK_keeps true rt K HK
                  (launch rt KcostVolumeCopy
                     (costVolumeCopyKernel left (d in_dims 0) (d in_dims 1) (d in_dims 2)
                        (d out_dims 0)) g (Dim3 16 16 1) dev)) as (st & d2 & E & Em).
      exists st, d2. split; [exact E|]. by rewrite Em, launch_empty.
    + rewrite !getBlockCount_debug_extent by lia. unfold assert.
      destruct (nbDims in_dims =? 3); [|done]. destruct (nbDims out_dims =? 4); [|done]. simpl.
      destruct (Z.eqb_spec (d in_dims 2) 0); [done|]. simpl.
      destruct (Z.eqb_spec (d in_dims 1) 0); [done|]. simpl.
      destruct (Z.eqb_spec (d in_dims 0) 0); [done|]. lia.
  - intros bias bias_dims conv_dims dev HND HH HW Hzero.
    unfold addDBiasTo3DConv. simpl.
    rewrite (i32_small (d conv_dims 0 * d conv_dims 1)) by (unfold INT32_MAX in *; lia).
    destruct NDEBUG.
    + rewrite !getBlockCount_release_extent by lia. simpl.
      match goal with |- context [launch rt KaddDBiasTo3DConv _ ?g0 _ _] => set (g := g0) end.
      assert (Hg : threads g (Dim3 16 16 1) = []).
      { apply threads_empty. unfold g. simpl.
        destruct (Z.eqb_spec (d conv_dims 3) 0), (Z.eqb_spec (d conv_dims 2) 0),
                 (Z.eqb_spec (d conv_dims 0 * d conv_dims 1) 0); lia. }
      destruct (CHECKK_keeps true rt _ keeps_buffer_ret
                  (launch rt KaddDBiasTo3DConv
                     (addDBiasTo3DConvKernel bias (d conv_dims 0) (d conv_dims 1)
                        (d conv_dims 2) (d conv_dims 3)) g (Dim3 16 16 1) dev))
        as (st & d2 & E & Em).
      exists st, d2. split; [exact E|]. by rewrite Em, launch_empty.
    + rewrite !getBlockCount_debug_extent by lia. unfold assert.
      destruct (nbDims bias_dims =? 5); [|done]. destruct (nbDims conv_dims =? 4); [|done].
      destruct (d bias_dims 0 =? 1); [|done].
      destruct (d bias_dims 2 =? d conv_dims 1); [|done]. simpl.
      destruct (Z.eqb_spec (d conv_dims 3) 0); [done|]. simpl.
      destruct (Z.eqb_spec (d conv_dims 2) 0); [done|]. simpl.
      destruct (Z.eqb_spec (d conv_dims 0 * d conv_dims 1) 0); [done|]. lia.
Qed.

Lemma zero_extent_writes_nothing_witness :
  computeCostVolume false device_runtime [] [] (dims_of_list [1; 1; 0])
    (dims_of_list [2; 2; 1; 0]) (mkDevice (Some [5; 7]) cudaSuccess [])
  = Abort /\
  exists st dev',
    computeCostVolume true device_runtime [] [] (dims_of_list [1; 1; 0])
      (dims_of_list [2; 2; 1; 0]) (mkDevice (Some [5; 7]) cudaSuccess [])
    = Ret (st, dev') /\
    dmem dev' = Some [5; 7].
Proof.
  split.
  - destruct (zero_extent_writes_nothing false device_runtime (T := Z)) as [Hcv _].
    apply (Hcv [] [] (dims_of_list [1; 1; 0]) (dims_of_list [2; 2; 1; 0])
             (mkDevice (Some [5; 7]) cudaSuccess []));
      try (vm_compute; done). right. right. reflexivity.
  - destruct (zero_extent_writes_nothing true device_runtime (T := Z)) as [Hcv _].
    apply (Hcv [] [] (dims_of_list [1; 1; 0]) (dims_of_list [2; 2; 1; 0])
             (mkDevice (Some [5; 7]) cudaSuccess []));
      try (vm_compute; done). right. right. reflexivity.
Defined.

(** X18: no operation divides by zero, whatever its arguments, and in a
    release build every operation returns a status: nothing stops it on the
    host side. *)
Theorem operations_return (NDEBUG : bool) (rt : Runtime) :
  (forall T (ET : Elem T) (left right : list T) in_dims out_dims dev,
     computeCostVolume NDEBUG rt left right in_dims out_dims dev <> Trap /\
     exists r, computeCostVolume true rt left right in_dims out_dims dev = Ret r) /\
  (forall T (ET : Elem T) (bias : list T) bias_dims conv_dims dev,
     addDBiasTo3DConv NDEBUG rt bias bias_dims conv_dims dev <> Trap /\
     exists r, addDBiasTo3DConv true rt bias bias_dims conv_dims dev = Ret r) /\
  (forall F32 U16 (HC : HalfConv F32 U16) (src : list F32) size (dev : Device U16),
     fp32Tofp16 NDEBUG rt src size dev <> Trap /\
     exists r, fp32Tofp16 true rt src size dev = Ret r) /\
  (forall F32 U16 (HC : HalfConv F32 U16) (src : list U16) size (dev : Device F32),
     fp16Tofp32 NDEBUG rt src size dev <> Trap /\
     exists r, fp16Tofp32 true rt src size dev = Ret r).
Proof.
  assert (Hret : forall T nd (k : Device T -> host (cudaError_t * Device T)) dev,
             (forall dev0, exists r, k dev0 = Ret r) -> exists r, CHECKK nd rt dev k = Ret r).
  { intros T nd k dev Hk. unfold CHECKK, cudaGetLastError.
    destruct (negb (last_error dev =? cudaSuccess)); [by eexists|].
    destruct nd; [apply Hk|].
    destruct (negb (cudaStreamSynchronize rt _ =? cudaSuccess)); [by eexists|apply Hk]. }
  assert (Hlast : forall T (dev0 : Device T),
             exists r, (fun dev => Ret (cudaSuccess, dev)) dev0 = Ret r) by (by eexists).
  assert (Hgb : forall nd t bs, bs <> 0 ->
             getBlockCount nd t bs = Abort \/ exists r, getBlockCount nd t bs = Ret r).
  { intros nd t bs Hb. unfold getBlockCount, assert.
    destruct (Z.eqb_spec bs 0); [done|]. destruct nd; simpl; [by right; eexists|].
    destruct (0 <? _); simpl; [|by left].
    destruct (_ <=? _); simpl; [by right; eexists | by left]. }
  assert (Hgt : forall t bs, bs <> 0 -> exists r, getBlockCount true t bs = Ret r).
  { intros t bs Hb. unfold getBlockCount, assert.
    destruct (Z.eqb_spec bs 0); [done|]. by eexists. }
  split; [|split; [|split]].
  - intros T ET left right in_dims out_dims dev. split.
    + unfold computeCostVolume, assert.
      destruct NDEBUG; simpl;
        repeat (match goal with
                | |- context [if ?c then Ret tt else Abort] => destruct c; simpl; try done
                | |- context [getBlockCount ?n ?t ?s] =>
                    destruct (Hgb n t s ltac:(done)) as [-> | [? ->]]; simpl; try done
                end);
        match goal with
        | |- CHECKK ?n rt ?d ?k <> Trap =>
            destruct (Hret T n k d) as [r ->]; [intros d0; by apply Hret|done]
        end.
    + unfold computeCostVolume. simpl.
      repeat (match goal with
              | |- context [getBlockCount true ?t ?s] =>
                  destruct (Hgt t s ltac:(done)) as [? ->]; simpl
              end).
      apply Hret. intros d0. by apply Hret.
  - intros T ET bias bias_dims conv_dims dev. split.
    + unfold addDBiasTo3DConv, assert.
      destruct NDEBUG; simpl;
        repeat (match goal with
                | |- context [if ?c then Ret tt else Abort] => destruct c; simpl; try done
                | |- context [getBlockCount ?n ?t ?s] =>
                    destruct (Hgb n t s ltac:(done)) as [-> | [? ->]]; simpl; try done
                end);
        match goal with
        | |- CHECKK ?n rt ?d ?k <> Trap =>
            destruct (Hret T n k d (Hlast T)) as [r ->]; done
        end.
    + unfold addDBiasTo3DConv. simpl.
      repeat (match goal with
              | |- context [getBlockCount true ?t ?s] =>
                  destruct (Hgt t s ltac:(done)) as [? ->]; simpl
              end).
      by apply Hret.
  - intros F32 U16 HC src size dev. split.
    + unfold fp32Tofp16. simpl.
      destruct (Hgb NDEBUG (u32 size) 256 ltac:(done)) as [-> | [? ->]]; simpl; [done|].
      match goal with
      | |- CHECKK ?n rt ?d ?k <> Trap =>
          destruct (Hret U16 n k d (Hlast U16)) as [r ->]; done
      end.
    + unfold fp32Tofp16. change (dim_x (Dim3 256 1 1)) with 256.
      destruct (Hgt (u32 size) 256 ltac:(done)) as [? ->]. simpl.
      by apply Hret.
  - intros F32 U16 HC src size dev. split.
    + unfold fp16Tofp32. simpl.
      destruct (Hgb NDEBUG (u32 size) 256 ltac:(done)) as [-> | [? ->]]; simpl; [done|].
      match goal with
      | |- CHECKK ?n rt ?d ?k <> Trap =>
          destruct (Hret F32 n k d (Hlast F32)) as [r ->]; done
      end.
    + unfold fp16Tofp32. change (dim_x (Dim3 256 1 1)) with 256.
      destruct (Hgt (u32 size) 256 ltac:(done)) as [? ->]. simpl.
      by apply Hret.
Qed.

(** ** The element index of the bias kernel beyond 32 bits *)

(** A bias launch never changes an element at index [2^32] or beyond: the
    index [idst] is formed in 32-bit unsigned arithmetic before it is
    widened. *)
Lemma bias_grid_frame {T : Type} {ET : Elem T} (bias : list T) c dd h w g b
    (conv conv' : list T) :
  run_grid (addDBiasTo3DConvKernel bias c dd h w) g b conv = Some conv' ->
  forall j, 2 ^ 32 <= j -> rd conv' j = rd conv j.
Proof.
  unfold run_grid. apply run_threads_frame.
  intros t m m' _ E j Hj. unfold addDBiasTo3DConvKernel in E.
  destruct (_ || _); [by injection E as <-|].
  destruct (rd bias _); [|done]. simpl in E.
  destruct (rd m _); [|done]. simpl in E.
  apply wr_Some in E as (_ & _ & R). rewrite R.
  match goal with |- context [j =? u32 ?v] =>
    pose proof (Z.mod_pos_bound v (2 ^ 32) ltac:(lia)) as Hu; fold (u32 v) in Hu;
    destruct (Z.eqb_spec j (u32 v)); [lia|done]
  end.
Qed.

(** C3: the code does not increment every element of a tensor of more than
    [2^32] elements.  On the shape [[1,3,65536,65536]], which passes the
    assertions and whose grid the device accepts, the element [conv[1,0,0]]
    has index [2^32]; the thread in charge of it computes the index 0 and
    adds [bias[1]] to [conv[0,0,0]] instead, and whatever the inputs no call
    changes an element at index [2^32] or beyond. *)
Theorem addDBiasTo3DConv_index_wraps :
  feat_index 65536 65536 1 0 0 = 2 ^ 32 /\
  addDBiasTo3DConvKernel [100; 200; 300] 1 3 65536 65536
    (Dim3 0 0 1) (Dim3 16 16 1) (Dim3 0 0 0) [5; 6; 7] = Some [205; 6; 7] /\
  (getBlockCount false (u32 65536) 16 = Ret 4096 /\
   getBlockCount false (u32 (i32 (1 * 3))) 1 = Ret 3 /\
   4096 <= kMaxGridSizeY /\ 3 <= kMaxGridSizeZ /\
   launch_check device_runtime (Dim3 4096 4096 3) (Dim3 16 16 1) = cudaSuccess) /\
  (forall NDEBUG rt T (ET : Elem T) (bias : list T) bias_dims conv_dims (conv conv' : list T)
          log st dev',
     addDBiasTo3DConv NDEBUG rt bias bias_dims conv_dims (mkDevice (Some conv) cudaSuccess log)
     = Ret (st, dev') ->
     dmem dev' = Some conv' ->
     forall j, 2 ^ 32 <= j -> rd conv' j = rd conv j).
Proof.
  split; [reflexivity|]. split; [vm_compute; reflexivity|].
  split; [vm_compute; repeat split; discriminate|].
  intros NDEBUG rt T ET bias bias_dims conv_dims conv conv' log st dev' E Hmem j Hj.
  unfold addDBiasTo3DConv in E.
  repeat (match type of E with
          | context [assert ?n ?c] => destruct (assert n c); simpl in E; try done
          | context [getBlockCount ?n ?t ?s] =>
              destruct (getBlockCount n t s); simpl in E; try done
          end).
  match type of E with
  | CHECKK _ _ (launch rt ?id ?k ?g ?b ?dev) _ = _ =>
      destruct (CHECKK_last NDEBUG rt (launch rt id k g b dev)) as [st' E'];
      rewrite E' in E; injection E as _ <-;
      unfold launch in Hmem; simpl in Hmem;
      destruct (launch_check rt g b =? cudaSuccess); simpl in Hmem
  end.
  - by apply (bias_grid_frame _ _ _ _ _ _ _ _ _ Hmem).
  - by injection Hmem as <-.
Qed.
